(** * The dataset manager of ingestion_program/datasets.py

    A shallow embedding of the class [Data]: its constructor, the two
    loaders, the accessors, [delete_train_set], [get_syst_train_set] and
    [generate_psuedo_exp_data].  Methods are computations in a state and
    exception monad over the manager object ([self]) and the world it
    runs in (the file system it reads, the ambient state the external
    collaborator may consult, and a log of the observable events).

    A file is a path with a content: directories, permissions and text
    encodings are left out, so opening a file fails only when there is no
    file at the path. The three imports of the systematics module inside
    the methods are taken to succeed. The download helper
    [Neurips2024_public_dataset] is not part of the manager; it is
    modelled apart, on a disk it can write to, in [Provisioner]. *)

From Stdlib Require Import ZArith List String Ascii Bool Lia.
From Stdlib Require Import PrimFloat.
Import ListNotations.
Open Scope string_scope.

Set Implicit Arguments.
Set Warnings "-register-all".

(** ** Python values that the code only passes around *)

(** Arguments of the keyword parameters ([set_mu=1], [tes=1.0],
    [ttbar_scale=None], [seed=42], ...). *)
Inductive pyarg : Type :=
| PNone
| PInt (z : Z)
| PFloat (f : float).

(** What [json.load] returns. A dict is kept as its items in insertion
    order; a key has one binding. *)
Inductive pyjson : Type :=
| JNull
| JBool (b : bool)
| JInt (z : Z)
| JFloat (f : float)
| JStr (s : string)
| JList (l : list pyjson)
| JDict (items : list (string * pyjson)).

(** The exceptions the modelled code can raise. *)
Inductive exn : Type :=
| FileNotFoundError (path : string)
| ValueError
| JSONDecodeError
| ArrowInvalid
| KeyError (key : string)
| TypeError
| AttributeError (name : string)
| CollaboratorError (msg : string).

(** The error conditions the specification names. *)
Inductive condition : Type :=
| MissingFile
| MalformedData
| PreconditionViolation.

Definition classify (e : exn) : option condition :=
  match e with
  | FileNotFoundError _ => Some MissingFile
  | ValueError | JSONDecodeError | ArrowInvalid => Some MalformedData
  | _ => None
  end.

Inductive pyresult (A : Type) : Type :=
| Ok (a : A)
| Raise (e : exn).
Arguments Ok {A} a.
Arguments Raise {A} e.

(** An instance attribute: [del] unbinds it, and reading an unbound
    attribute raises [AttributeError]. A bound attribute holding Python's
    [None] is [Bound None]. *)
Inductive attr (A : Type) : Type :=
| Unbound
| Bound (v : A).
Arguments Unbound {A}.
Arguments Bound {A} v.

(** ** Dictionaries with string keys, in insertion order *)

Fixpoint dict_get {V : Type} (k : string) (d : list (string * V)) : option V :=
  match d with
  | [] => None
  | (k', v) :: d' => if String.eqb k k' then Some v else dict_get k d'
  end.

(** [d[k] = v]: an existing key keeps its position. *)
Fixpoint dict_set {V : Type} (k : string) (v : V) (d : list (string * V))
  : list (string * V) :=
  match d with
  | [] => [(k, v)]
  | (k', v') :: d' =>
      if String.eqb k k' then (k', v) :: d' else (k', v') :: dict_set k v d'
  end.

Definition dict_keys {V : Type} (d : list (string * V)) : list string :=
  map fst d.

(** [obj[key]] on a decoded JSON value. *)
Definition json_getitem (j : pyjson) (key : string) : pyresult pyjson :=
  match j with
  | JDict items =>
      match dict_get key items with
      | Some v => Ok v
      | None => Raise (KeyError key)
      end
  | _ => Raise TypeError
  end.

(** ** [os.path.join] (posixpath) *)

Definition startswith_sep (s : string) : bool :=
  match s with
  | String c _ => Ascii.eqb c "/"%char
  | EmptyString => false
  end.

Fixpoint endswith_sep (s : string) : bool :=
  match s with
  | EmptyString => false
  | String c EmptyString => Ascii.eqb c "/"%char
  | String _ s' => endswith_sep s'
  end.

Definition join_step (path b : string) : string :=
  if startswith_sep b then b
  else if (String.eqb path "" || endswith_sep path)%bool then path ++ b
  else path ++ "/" ++ b.

Definition path_join (a : string) (p : list string) : string :=
  fold_left join_step p a.

(** ** [str.splitlines] on the text [f.read()] returns

    A character is a code point below 256; the line boundaries are those
    [str.splitlines] knows in that range, [\r\n] counting as one. *)

Definition is_linebreak (c : ascii) : bool :=
  let n := nat_of_ascii c in
  ((n =? 10) || (n =? 11) || (n =? 12) || (n =? 13) ||
   (n =? 28) || (n =? 29) || (n =? 30) || (n =? 133))%nat.

(** [cur] is the line being read, last character first. *)
Fixpoint rev_string (acc s : string) : string :=
  match s with
  | EmptyString => acc
  | String c s' => rev_string (String c acc) s'
  end.

Fixpoint splitlines_from (cur : string) (s : string) : list string :=
  match s with
  | EmptyString =>
      match cur with
      | EmptyString => []
      | _ => [rev_string "" cur]
      end
  | String c s' =>
      if is_linebreak c then
        match s' with
        | String c' s'' =>
            if (Ascii.eqb c "013" && Ascii.eqb c' "010")%bool
            then rev_string "" cur :: splitlines_from "" s''
            else rev_string "" cur :: splitlines_from "" s'
        | EmptyString => [rev_string "" cur]
        end
      else splitlines_from (String c cur) s'
  end.

Definition splitlines (s : string) : list string := splitlines_from "" s.

(** ** The libraries the module imports

    numpy, json and pandas are used through the operations below; what
    they decode is not fixed here. [None] stands for the exception the
    operation raises on text it cannot decode. *)
Class Libraries : Type := {
  DataFrame : Type;
  NdArray : Type;
  (** [pd.DataFrame()] *)
  DataFrame_new : DataFrame;
  (** the text [DataFrame.info(verbose=False, memory_usage="deep")] prints *)
  DataFrame_info : DataFrame -> string;
  (** [np.array(lines, dtype=float)]; fails with [ValueError] *)
  np_array_float : list string -> option NdArray;
  (** [json.load]; fails with [JSONDecodeError] *)
  json_loads : string -> option pyjson;
  (** [pd.read_parquet] on the bytes of a file; fails with [ArrowInvalid] *)
  parquet_decode : string -> option DataFrame
}.

Section Partitions.
Context {L : Libraries}.

(** The dict built by [load_train_set]; its five keys are fixed. *)
Record TrainSet : Type := {
  data : DataFrame;
  labels : NdArray;
  settings : pyjson;
  weights : NdArray;
  detailed_labels : list string
}.

(** The dict built by [load_test_set]: category key to table. *)
Definition TestSet : Type := list (string * DataFrame).

(** The attributes of a [Data] object. [_Data__test_set] and
    [input_dir] are bound by the constructor and never deleted. *)
Record Data : Type := {
  Data__train_set : attr (option TrainSet);
  Data__test_set : option TestSet;
  input_dir : string;
  ground_truth_mus : attr pyjson
}.

Definition set_train_set (v : attr (option TrainSet)) (d : Data) : Data :=
  {| Data__train_set := v;
     Data__test_set := Data__test_set d;
     input_dir := input_dir d;
     ground_truth_mus := ground_truth_mus d |}.

Definition set_test_set (v : option TestSet) (d : Data) : Data :=
  {| Data__train_set := Data__train_set d;
     Data__test_set := v;
     input_dir := input_dir d;
     ground_truth_mus := ground_truth_mus d |}.

Definition set_ground_truth_mus (v : attr pyjson) (d : Data) : Data :=
  {| Data__train_set := Data__train_set d;
     Data__test_set := Data__test_set d;
     input_dir := input_dir d;
     ground_truth_mus := v |}.
End Partitions.

(** ** The systematics module

    Modelled from the spec: systematics.py, from which the methods import
    [get_bootstraped_dataset], [get_systematics_dataset] and [systematics],
    is not among the sources. Its functions are taken as they are called.
    A callee receives a reference to the object it is passed, so each
    function returns, next to its outcome, the value of its argument
    object after the call. Sampling randomness enters at the bootstrap
    step only, which may consult the ambient state of the process. *)
Class Systematics (L : Libraries) : Type := {
  Obj : Type;
  Ambient : Type;
  get_bootstraped_dataset :
    Ambient -> option TestSet ->
    forall (mu ttbar_scale diboson_scale bkg_scale seed : pyarg),
    pyresult Obj * option TestSet * Ambient;
  get_systematics_dataset :
    Obj -> forall (tes jes soft_met : pyarg), pyresult Obj * Obj;
  systematics :
    option TrainSet ->
    forall (tes jes soft_met ttbar_scale diboson_scale bkg_scale : pyarg),
    pyresult Obj * option TrainSet
}.

(** ** The world and the monad of method bodies *)

Section Methods.
Context {L : Libraries} {S : Systematics L}.

(** What a run lets an observer see: text printed, files opened (also
    those that turn out to be missing), and calls into the systematics
    module with their arguments. *)
Inductive event : Type :=
| Print (text : string)
| Open (path : string)
| Call_get_bootstraped_dataset
    (test_set : option TestSet)
    (mu ttbar_scale diboson_scale bkg_scale seed : pyarg)
| Call_get_systematics_dataset (pseudo : Obj) (tes jes soft_met : pyarg)
| Call_systematics
    (train_set : option TrainSet)
    (tes jes soft_met ttbar_scale diboson_scale bkg_scale : pyarg).

(** [fs] gives the content of the file at a path, if there is one;
    [log] has the most recent event first. *)
Record World : Type := {
  fs : string -> option string;
  ambient : Ambient;
  log : list event
}.

Record State : Type := {
  self : Data;
  world : World
}.

Definition M (A : Type) : Type := State -> pyresult A * State.

Definition ret {A : Type} (a : A) : M A := fun st => (Ok a, st).

Definition raise {A : Type} (e : exn) : M A := fun st => (Raise e, st).

(** An exception leaves the state as it is when it is raised. *)
Definition bind {A B : Type} (m : M A) (k : A -> M B) : M B :=
  fun st =>
    match m st with
    | (Ok a, st') => k a st'
    | (Raise e, st') => (Raise e, st')
    end.

Definition get_self : M Data := fun st => (Ok (self st), st).

Definition get_world : M World := fun st => (Ok (world st), st).

Definition modify_self (f : Data -> Data) : M unit :=
  fun st => (Ok tt, {| self := f (self st); world := world st |}).

(** The state with [new] events, most recent first, added to the log. *)
Definition extend_log (new : list event) (st : State) : State :=
  {| self := self st;
     world := {| fs := fs (world st);
                 ambient := ambient (world st);
                 log := new ++ log (world st) |} |}.

Definition emit (e : event) : M unit :=
  fun st => (Ok tt, extend_log [e] st).

Definition or_raise {A : Type} (e : exn) (o : option A) : M A :=
  match o with
  | Some a => ret a
  | None => raise e
  end.

Definition lift_result {A : Type} (r : pyresult A) : M A :=
  match r with
  | Ok a => ret a
  | Raise e => raise e
  end.
End Methods.

Declare Scope py_scope.
Delimit Scope py_scope with py.
Notation "x <- c1 ;; c2" := (bind c1 (fun x => c2))
  (at level 61, c1 at next level, right associativity) : py_scope.
Notation "c1 ;; c2" := (bind c1 (fun _ => c2))
  (at level 61, right associativity) : py_scope.
Open Scope py_scope.

Section Class_Data.
Context {L : Libraries} {S : Systematics L}.

(** [print(text)] *)
Definition print (text : string) : M unit := emit (Print text).

(** [with open(path) as f: f.read()] *)
Definition open_read (path : string) : M string :=
  emit (Open path) ;;
  w <- get_world ;;
  or_raise (FileNotFoundError path) (fs w path).

(** [pd.read_parquet(path, engine="pyarrow")] *)
Definition read_parquet (path : string) : M DataFrame :=
  bytes <- open_read path ;;
  or_raise ArrowInvalid (parquet_decode bytes).

(** [self.__train_set] *)
Definition getattr_train_set : M (option TrainSet) :=
  d <- get_self ;;
  match Data__train_set d with
  | Bound v => ret v
  | Unbound => raise (AttributeError "_Data__train_set")
  end.

(** [del self.__train_set] *)
Definition delattr_train_set : M unit :=
  d <- get_self ;;
  match Data__train_set d with
  | Bound _ => modify_self (set_train_set Unbound)
  | Unbound => raise (AttributeError "_Data__train_set")
  end.

(** [Data(input_dir)] *)
Definition Data_init (input_dir : string) : World -> pyresult Data * World :=
  fun w =>
    (Ok {| Data__train_set := Bound None;
           Data__test_set := None;
           input_dir := input_dir;
           ground_truth_mus := Unbound |},
     w).

Definition load_train_set : M unit :=
  print "[*] Loading Train data" ;;
  d <- get_self ;;
  let train_data_file :=
    path_join (input_dir d) ["train"; "data"; "data.parquet"] in
  let train_labels_file :=
    path_join (input_dir d) ["train"; "labels"; "data.labels"] in
  let train_settings_file :=
    path_join (input_dir d) ["train"; "settings"; "data.json"] in
  let train_weights_file :=
    path_join (input_dir d) ["train"; "weights"; "data.weights"] in
  let train_detailed_labels_file :=
    path_join (input_dir d)
      ["train"; "detailed_labels"; "data.detailed_labels"] in
  (* read train labels *)
  text <- open_read train_labels_file ;;
  train_labels <- or_raise ValueError (np_array_float (splitlines text)) ;;
  (* read train settings *)
  text <- open_read train_settings_file ;;
  train_settings <- or_raise JSONDecodeError (json_loads text) ;;
  (* read train weights *)
  text <- open_read train_weights_file ;;
  train_weights <- or_raise ValueError (np_array_float (splitlines text)) ;;
  (* read train process flags *)
  text <- open_read train_detailed_labels_file ;;
  let train_detailed_labels := splitlines text in
  df <- read_parquet train_data_file ;;
  modify_self
    (set_train_set
       (Bound (Some {| data := df;
                       labels := train_labels;
                       settings := train_settings;
                       weights := train_weights;
                       detailed_labels := train_detailed_labels |}))) ;;
  (* print(self.__train_set["data"].info(...)): info prints, returns None *)
  ts <- getattr_train_set ;;
  df <- or_raise TypeError (option_map data ts) ;;
  print (DataFrame_info df) ;;
  print "None" ;;
  d <- get_self ;;
  let test_settings_file :=
    path_join (input_dir d) ["test"; "settings"; "data.json"] in
  text <- open_read test_settings_file ;;
  test_settings <- or_raise JSONDecodeError (json_loads text) ;;
  mus <- lift_result (json_getitem test_settings "ground_truth_mus") ;;
  modify_self (set_ground_truth_mus (Bound mus)) ;;
  print "[*] Train data loaded successfully".

(** [for x in xs: acc = body(x, acc)] *)
Fixpoint for_each {A B : Type} (xs : list A) (body : A -> B -> M B) (acc : B)
  : M B :=
  match xs with
  | [] => ret acc
  | x :: xs' => acc' <- body x acc ;; for_each xs' body acc'
  end.

Definition load_test_set : M unit :=
  print "[*] Loading Test data" ;;
  d <- get_self ;;
  let test_data_dir := path_join (input_dir d) ["test"; "data"] in
  (* read test setting *)
  let test_set : TestSet :=
    [("ztautau", DataFrame_new);
     ("diboson", DataFrame_new);
     ("ttbar", DataFrame_new);
     ("htautau", DataFrame_new)] in
  test_set <-
    for_each (dict_keys test_set)
      (fun key test_set =>
         let test_data_path :=
           path_join test_data_dir [key ++ "_data.parquet"] in
         df <- read_parquet test_data_path ;;
         ret (dict_set key df test_set))
      test_set ;;
  modify_self (set_test_set (Some test_set)) ;;
  print "[*] Test data loaded successfully".

(** [get_bootstraped_dataset(self.__test_set, ...)]: the callee works on
    the object the attribute refers to, so what it leaves there is what
    the attribute holds afterwards, also when it raises. *)
Definition call_get_bootstraped_dataset
  (mu ttbar_scale diboson_scale bkg_scale seed : pyarg) : M Obj :=
  d <- get_self ;;
  emit (Call_get_bootstraped_dataset (Data__test_set d)
          mu ttbar_scale diboson_scale bkg_scale seed) ;;
  fun st =>
    let '(r, test_set', ambient') :=
      get_bootstraped_dataset (ambient (world st)) (Data__test_set d)
        mu ttbar_scale diboson_scale bkg_scale seed in
    (r, {| self := set_test_set test_set' (self st);
           world := {| fs := fs (world st);
                       ambient := ambient';
                       log := log (world st) |} |}).

(** [get_systematics_dataset(pesudo_exp_data, ...)]: the argument is held
    by a local variable of the caller only. *)
Definition call_get_systematics_dataset
  (pesudo_exp_data : Obj) (tes jes soft_met : pyarg) : M Obj :=
  emit (Call_get_systematics_dataset pesudo_exp_data tes jes soft_met) ;;
  lift_result (fst (get_systematics_dataset pesudo_exp_data tes jes soft_met)).

Definition generate_psuedo_exp_data
  (set_mu tes jes soft_met ttbar_scale diboson_scale bkg_scale seed : pyarg)
  : M Obj :=
  (* get bootstrapped dataset from the original test set *)
  pesudo_exp_data <-
    call_get_bootstraped_dataset
      set_mu ttbar_scale diboson_scale bkg_scale seed ;;
  test_set <- call_get_systematics_dataset pesudo_exp_data tes jes soft_met ;;
  ret test_set.

Definition get_train_set : M (option TrainSet) := getattr_train_set.

Definition get_test_set : M (option TestSet) :=
  d <- get_self ;;
  ret (Data__test_set d).

Definition delete_train_set : M unit := delattr_train_set.

(** [systematics(self.__train_set, ...)], on the object the attribute
    refers to. *)
Definition call_systematics
  (tes jes soft_met ttbar_scale diboson_scale bkg_scale : pyarg) : M Obj :=
  train_set <- getattr_train_set ;;
  emit (Call_systematics train_set
          tes jes soft_met ttbar_scale diboson_scale bkg_scale) ;;
  let '(r, train_set') :=
    systematics train_set
      tes jes soft_met ttbar_scale diboson_scale bkg_scale in
  modify_self (set_train_set (Bound train_set')) ;;
  lift_result r.

Definition get_syst_train_set
  (tes jes soft_met ttbar_scale diboson_scale bkg_scale : pyarg) : M Obj :=
  train_set <- getattr_train_set ;;
  match train_set with
  | None => load_train_set
  | Some _ => ret tt
  end ;;
  call_systematics tes jes soft_met ttbar_scale diboson_scale bkg_scale.

(** The default values of the keyword parameters. *)
Definition default_set_mu : pyarg := PInt 1.
Definition default_tes : pyarg := PFloat 1.0.
Definition default_jes : pyarg := PFloat 1.0.
Definition default_soft_met : pyarg := PFloat 0.0.
Definition default_scale : pyarg := PNone.
Definition default_seed : pyarg := PInt 42.
End Class_Data.

(** ** Runs, and what is observed of them *)

Section Observations.
Context {L : Libraries} {S : Systematics L}.

Definition outcome {A : Type} (r : pyresult A * State) : pyresult A := fst r.
Definition self_after {A : Type} (r : pyresult A * State) : Data :=
  self (snd r).
Definition log_after {A : Type} (r : pyresult A * State) : list event :=
  log (world (snd r)).

Definition raises {A : Type} (r : pyresult A * State) (c : condition) : Prop :=
  exists e, outcome r = Raise e /\ classify e = Some c.

Definition is_open (e : event) : bool :=
  match e with
  | Open _ => true
  | _ => false
  end.

Definition is_call (e : event) : bool :=
  match e with
  | Call_get_bootstraped_dataset _ _ _ _ _ _
  | Call_get_systematics_dataset _ _ _ _
  | Call_systematics _ _ _ _ _ _ _ => true
  | _ => false
  end.

(** The files opened, and the calls made into the systematics module,
    in a stretch of the log. *)
Definition opens (l : list event) : list event := filter is_open l.
Definition calls (l : list event) : list event := filter is_call l.

(** The state of the train partition, as the attribute shows it. *)
Inductive train_state : Type :=
| TrainUnbound
| TrainAbsent
| TrainLoaded.

Definition train_state_of (a : attr (option TrainSet)) : train_state :=
  match a with
  | Unbound => TrainUnbound
  | Bound None => TrainAbsent
  | Bound (Some _) => TrainLoaded
  end.

(** The manager as constructed, placed in a world. *)
Definition constructed (input_dir : string) (w : World) : State :=
  {| self := {| Data__train_set := Bound None;
                Data__test_set := None;
                input_dir := input_dir;
                ground_truth_mus := Unbound |};
     world := w |}.

(** The public methods, for sequences of calls. *)
Inductive method : Type :=
| Mload_train_set
| Mload_test_set
| Mgenerate_psuedo_exp_data
    (set_mu tes jes soft_met ttbar_scale diboson_scale bkg_scale seed : pyarg)
| Mget_train_set
| Mget_test_set
| Mdelete_train_set
| Mget_syst_train_set
    (tes jes soft_met ttbar_scale diboson_scale bkg_scale : pyarg).

(** The state a call leaves, whether it returns or raises. *)
Definition invoke (m : method) (st : State) : State :=
  match m with
  | Mload_train_set => snd (load_train_set st)
  | Mload_test_set => snd (load_test_set st)
  | Mgenerate_psuedo_exp_data mu tes jes sm tb di bk seed =>
      snd (generate_psuedo_exp_data mu tes jes sm tb di bk seed st)
  | Mget_train_set => snd (get_train_set st)
  | Mget_test_set => snd (get_test_set st)
  | Mdelete_train_set => snd (delete_train_set st)
  | Mget_syst_train_set tes jes sm tb di bk =>
      snd (get_syst_train_set tes jes sm tb di bk st)
  end.

(** Between calls the files and the ambient state may change under the
    manager; its attributes and the log do not. *)
Definition disturb (fs' : string -> option string) (ambient' : Ambient)
  (st : State) : State :=
  {| self := self st;
     world := {| fs := fs'; ambient := ambient'; log := log (world st) |} |}.

(** The call runs [load_train_set], by itself or on behalf of
    [get_syst_train_set], and [load_train_set] returns. *)
Definition load_train_returns (m : method) (st : State) : Prop :=
  match m with
  | Mload_train_set => outcome (load_train_set st) = Ok tt
  | Mget_syst_train_set _ _ _ _ _ _ =>
      Data__train_set (self st) = Bound None /\
      outcome (load_train_set st) = Ok tt
  | _ => False
  end.

(** The states a manager goes through from [st0] as long as no
    [load_train_set] has returned. *)
Inductive reaches_before_load (st0 : State) : State -> Prop :=
| reaches_here : reaches_before_load st0 st0
| reaches_call m st :
    reaches_before_load st0 st ->
    ~ load_train_returns m st ->
    reaches_before_load st0 (invoke m st)
| reaches_disturb fs' ambient' st :
    reaches_before_load st0 st ->
    reaches_before_load st0 (disturb fs' ambient' st).

(** The text a successful [load_train_set] prints last. *)
Definition train_loaded_banner : event :=
  Print "[*] Train data loaded successfully".

(** *** Reading the input directory, file by file *)

Definition train_data_file (dir : string) : string :=
  path_join dir ["train"; "data"; "data.parquet"].
Definition train_labels_file (dir : string) : string :=
  path_join dir ["train"; "labels"; "data.labels"].
Definition train_settings_file (dir : string) : string :=
  path_join dir ["train"; "settings"; "data.json"].
Definition train_weights_file (dir : string) : string :=
  path_join dir ["train"; "weights"; "data.weights"].
Definition train_detailed_labels_file (dir : string) : string :=
  path_join dir ["train"; "detailed_labels"; "data.detailed_labels"].
Definition test_settings_file (dir : string) : string :=
  path_join dir ["test"; "settings"; "data.json"].

(** What indexing the decoded [test/settings/data.json] gives. *)
Definition ground_truth_file (w : World) (dir : string) : pyresult pyjson :=
  match fs w (test_settings_file dir) with
  | None => Raise (FileNotFoundError (test_settings_file dir))
  | Some text =>
      match json_loads text with
      | None => Raise JSONDecodeError
      | Some j => json_getitem j "ground_truth_mus"
      end
  end.

(** What a file at [path] decodes to. *)
Definition decoded {A : Type} (w : World) (decode : string -> option A)
  (path : string) : option A :=
  match fs w path with
  | Some text => decode text
  | None => None
  end.

(** The train partition the five train files hold, when each of them is
    there and decodes. *)
Definition train_files (w : World) (dir : string) : option TrainSet :=
  let floats := fun text => np_array_float (splitlines text) in
  let lines := fun text => Some (splitlines text) in
  match decoded w floats (train_labels_file dir),
        decoded w json_loads (train_settings_file dir),
        decoded w floats (train_weights_file dir),
        decoded w lines (train_detailed_labels_file dir),
        decoded w parquet_decode (train_data_file dir)
  with
  | Some l, Some s, Some wt, Some dl, Some df =>
      Some {| data := df; labels := l; settings := s;
              weights := wt; detailed_labels := dl |}
  | _, _, _, _, _ => None
  end.

(** The four category keys, in the order [load_test_set] reads them. *)
Definition categories : list string :=
  ["ztautau"; "diboson"; "ttbar"; "htautau"].

Definition category_file (dir key : string) : string :=
  path_join (path_join dir ["test"; "data"]) [key ++ "_data.parquet"].

Definition unreadable (w : World) (dir key : string) : bool :=
  match decoded w parquet_decode (category_file dir key) with
  | Some _ => false
  | None => true
  end.

(** The first category, in reading order, whose file is missing or is
    not parquet. *)
Definition first_unreadable (w : World) (dir : string) : option string :=
  find (unreadable w dir) categories.

(** The exception reading a category file ends in. *)
Definition read_error (w : World) (dir key : string) : exn :=
  match fs w (category_file dir key) with
  | None => FileNotFoundError (category_file dir key)
  | Some _ => ArrowInvalid
  end.

(** The events of a [load_train_set] up to the installation of the
    partition, and of a complete [load_test_set], most recent first. *)
Definition train_log (dir : string) : list event :=
  [Open (train_data_file dir);
   Open (train_detailed_labels_file dir);
   Open (train_weights_file dir);
   Open (train_settings_file dir);
   Open (train_labels_file dir);
   Print "[*] Loading Train data"].

Definition test_log (dir : string) : list event :=
  [Print "[*] Test data loaded successfully";
   Open (category_file dir "htautau");
   Open (category_file dir "ttbar");
   Open (category_file dir "diboson");
   Open (category_file dir "ztautau");
   Print "[*] Loading Test data"].

(** The same manager with another stored test partition. *)
Definition with_test_set (v : option TestSet) (st : State) : State :=
  {| self := set_test_set v (self st); world := world st |}.

(** *** Three statements about failure, as the specification words them *)

(** [load_train()] either succeeds with the partition installed, or
    raises with the train partition and the cached ground-truth
    parameters as before the call. *)
Definition load_train_atomic (st : State) : Prop :=
  let r := load_train_set st in
  (outcome r = Ok tt /\
   exists ts, Data__train_set (self_after r) = Bound (Some ts)) \/
  ((exists e, outcome r = Raise e) /\
   Data__train_set (self_after r) = Data__train_set (self st) /\
   ground_truth_mus (self_after r) = ground_truth_mus (self st)).

(** [generate(...)] raises [PreconditionViolation] and makes no call into
    the systematics module. *)
Definition generate_refuses
  (mu tes jes sm tb di bk seed : pyarg) (st : State) : Prop :=
  let r := generate_psuedo_exp_data mu tes jes sm tb di bk seed st in
  raises r PreconditionViolation /\
  calls (log_after r) = calls (log (world st)).

(** [load_test()] fails with [MissingFile], the test partition kept, when
    a category file is absent, and installs the four categories when all
    four files are present. *)
Definition load_test_complete_or_missing (st : State) : Prop :=
  let dir := input_dir (self st) in
  let r := load_test_set st in
  ((exists key, In key categories /\
                fs (world st) (category_file dir key) = None) ->
   raises r MissingFile /\
   Data__test_set (self_after r) = Data__test_set (self st)) /\
  ((forall key, In key categories ->
                fs (world st) (category_file dir key) <> None) ->
   exists ts, Data__test_set (self_after r) = Some ts /\
              dict_keys ts = categories).

(** The contracts the orchestrator assumes of the collaborator. *)

(** No function changes the object it is passed. *)
Definition does_not_mutate_input : Prop :=
  (forall a ts mu tb di bk seed,
      snd (fst (get_bootstraped_dataset a ts mu tb di bk seed)) = ts) /\
  (forall o tes jes sm, snd (get_systematics_dataset o tes jes sm) = o) /\
  (forall ts tes jes sm tb di bk,
      snd (systematics ts tes jes sm tb di bk) = ts).

(** Same seed and same input give the same resampled set, whatever the
    ambient state. *)
Definition bootstrap_deterministic : Prop :=
  forall a a' ts mu tb di bk seed,
    fst (fst (get_bootstraped_dataset a ts mu tb di bk seed)) =
    fst (fst (get_bootstraped_dataset a' ts mu tb di bk seed)).
End Observations.

(** ** A small instance, for concrete runs

    Stand-ins for the libraries and for the systematics module, and input
    directories under [/input]. *)
Module Toy.
Definition nl : string := String "010" "".
Definition dq : string := String "034" "".

Definition is_float_char (c : ascii) : bool :=
  let n := nat_of_ascii c in
  (((48 <=? n) && (n <=? 57)) || (n =? 46))%nat.

Fixpoint all_float_chars (s : string) : bool :=
  match s with
  | EmptyString => true
  | String c s' => is_float_char c && all_float_chars s'
  end.

Definition is_float (s : string) : bool :=
  match s with
  | EmptyString => false
  | _ => all_float_chars s
  end.

Definition mus_json : string :=
  "{" ++ dq ++ "ground_truth_mus" ++ dq ++ ": 2}".

(** The JSON documents the stand-in decoder knows. *)
Definition documents : list (string * pyjson) :=
  [("{}", JDict []);
   ("[]", JList []);
   (mus_json, JDict [("ground_truth_mus", JInt 2)])].

(** A table is its rows; a parquet file is the magic line [PAR1]
    followed by the rows. *)
Definition libraries : Libraries :=
  {| DataFrame := list string;
     NdArray := list string;
     DataFrame_new := [];
     DataFrame_info := fun _ => "<class 'pandas.core.frame.DataFrame'>";
     np_array_float :=
       fun lines => if forallb is_float lines then Some lines else None;
     json_loads := fun text => dict_get text documents;
     parquet_decode :=
       fun bytes =>
         match splitlines bytes with
         | "PAR1" :: rows => Some rows
         | _ => None
         end |}.

Definition table_set : Type := list (string * list string).

(** The bootstrap step counts its calls in the ambient state and hands
    back its input; the systematics steps hand back theirs. *)
Definition counting_bootstrap (a : nat) (ts : option (@TestSet libraries))
  (mu ttbar_scale diboson_scale bkg_scale seed : pyarg)
  : pyresult table_set * option (@TestSet libraries) * nat :=
  (match ts with
   | Some t => Ok t
   | None => Raise TypeError
   end, ts, Datatypes.S a).

Definition identity_systematics (o : table_set) (tes jes soft_met : pyarg)
  : pyresult table_set * table_set :=
  (Ok o, o).

Definition train_systematics (ts : option (@TrainSet libraries))
  (tes jes soft_met ttbar_scale diboson_scale bkg_scale : pyarg)
  : pyresult table_set * option (@TrainSet libraries) :=
  (match ts with
   | Some t => Ok [("train", data t)]
   | None => Raise TypeError
   end, ts).

Definition collaborator : Systematics libraries :=
  {| Obj := table_set;
     Ambient := nat;
     get_bootstraped_dataset := counting_bootstrap;
     get_systematics_dataset := identity_systematics;
     systematics := train_systematics |}.

(** A bootstrap step that empties the dict it is passed. *)
Definition clearing_bootstrap (a : nat) (ts : option (@TestSet libraries))
  (mu ttbar_scale diboson_scale bkg_scale seed : pyarg)
  : pyresult table_set * option (@TestSet libraries) * nat :=
  match ts with
  | Some t => (Ok t, Some [], a)
  | None => (Raise TypeError, None, a)
  end.

Definition clearing_collaborator : Systematics libraries :=
  {| Obj := table_set;
     Ambient := nat;
     get_bootstraped_dataset := clearing_bootstrap;
     get_systematics_dataset := identity_systematics;
     systematics := train_systematics |}.

Definition parquet (rows : list string) : string :=
  "PAR1" ++ nl ++ String.concat nl rows.

Definition train_tree : list (string * string) :=
  [("/input/train/data/data.parquet", parquet ["e1"; "e2"]);
   ("/input/train/labels/data.labels", "1.0" ++ nl ++ "0.0" ++ nl);
   ("/input/train/settings/data.json", "{}");
   ("/input/train/weights/data.weights", "0.5" ++ nl ++ "1.5" ++ nl);
   ("/input/train/detailed_labels/data.detailed_labels",
    "htautau" ++ nl ++ "ztautau" ++ nl)].

Definition test_settings_tree : list (string * string) :=
  [("/input/test/settings/data.json", mus_json)].

Definition test_tree : list (string * string) :=
  [("/input/test/data/ztautau_data.parquet", parquet ["z1"]);
   ("/input/test/data/diboson_data.parquet", parquet ["d1"; "d2"]);
   ("/input/test/data/ttbar_data.parquet", parquet []);
   ("/input/test/data/htautau_data.parquet", parquet ["h1"])].

(** [ttbar] is missing. *)
Definition test_tree_no_ttbar : list (string * string) :=
  [("/input/test/data/ztautau_data.parquet", parquet ["z1"]);
   ("/input/test/data/diboson_data.parquet", parquet ["d1"; "d2"]);
   ("/input/test/data/htautau_data.parquet", parquet ["h1"])].

(** [ztautau] is there but is not parquet, and [diboson] is missing. *)
Definition test_tree_corrupt : list (string * string) :=
  [("/input/test/data/ztautau_data.parquet", "not a parquet file");
   ("/input/test/data/ttbar_data.parquet", parquet []);
   ("/input/test/data/htautau_data.parquet", parquet ["h1"])].

(** The four files are there, and [ztautau] is not parquet. *)
Definition test_tree_present_corrupt : list (string * string) :=
  [("/input/test/data/ztautau_data.parquet", "not a parquet file");
   ("/input/test/data/diboson_data.parquet", parquet ["d1"; "d2"]);
   ("/input/test/data/ttbar_data.parquet", parquet []);
   ("/input/test/data/htautau_data.parquet", parquet ["h1"])].

Definition world_of (tree : list (string * string))
  : @World libraries collaborator :=
  @Build_World libraries collaborator (fun path => dict_get path tree) 0%nat [].

(** Everything in place. *)
Definition complete : @World libraries collaborator :=
  world_of (train_tree ++ test_settings_tree ++ test_tree).

(** The five train files, and no [test/settings/data.json]. *)
Definition train_only : @World libraries collaborator :=
  world_of train_tree.

(** No file at all. *)
Definition empty : @World libraries collaborator := world_of [].

Definition fresh (w : @World libraries collaborator)
  : @State libraries collaborator :=
  constructed "/input" w.

(** The manager after a complete [load_test_set]. *)
Definition test_loaded : @State libraries collaborator :=
  snd (load_test_set (fresh complete)).

(** The same manager later on, the ambient state having moved. *)
Definition test_loaded_later : @State libraries collaborator :=
  @disturb libraries collaborator (fs (world test_loaded)) 7%nat test_loaded.

(** The same manager in a world where the bootstrap step empties the
    dict it is passed. *)
Definition test_loaded_clearing : @State libraries clearing_collaborator :=
  @Build_State libraries clearing_collaborator
    (self test_loaded)
    (@Build_World libraries clearing_collaborator
       (fs (world test_loaded)) 0%nat []).
End Toy.

(** ** More observations on the manager *)

Definition newline : string := String "010" "".

(** The text of a file with one line per element, each line ended by a
    newline. *)
Fixpoint unlines (ls : list string) : string :=
  match ls with
  | [] => ""
  | l :: ls' => l ++ newline ++ unlines ls'
  end.

Fixpoint no_linebreak (s : string) : bool :=
  match s with
  | EmptyString => true
  | String c s' => negb (is_linebreak c) && no_linebreak s'
  end.

Section MoreObservations.
Context {L : Libraries} {S : Systematics L}.

Definition set_input_dir (dir : string) (d : Data) : Data :=
  {| Data__train_set := Data__train_set d;
     Data__test_set := Data__test_set d;
     input_dir := dir;
     ground_truth_mus := ground_truth_mus d |}.

(** The same manager made on another path. *)
Definition with_input_dir (dir : string) (st : State) : State :=
  {| self := set_input_dir dir (self st); world := world st |}.

(** The same manager with another train attribute and other cached
    ground-truth parameters. *)
Definition with_train_state
  (a : attr (option TrainSet)) (g : attr pyjson) (st : State) : State :=
  {| self := set_ground_truth_mus g (set_train_set a (self st));
     world := world st |}.

(** The six files [load_train_set] opens, in the order it opens them, and
    the four [load_test_set] opens. *)
Definition train_reads (dir : string) : list string :=
  [train_labels_file dir; train_settings_file dir; train_weights_file dir;
   train_detailed_labels_file dir; train_data_file dir;
   test_settings_file dir].


End MoreObservations.

(** ** The download helper [Neurips2024_public_dataset]

    The module defines the function twice; the second definition, the one
    the name is bound to, is the one given here. The machine is a disk of
    directories and files, a working directory and a network; [requests]
    and [zipfile] are taken through what they deliver. Permissions are
    left out. *)
Module Provisioner.

(** What is at a path of the disk. *)
Inductive node : Type :=
| Dir
| File (content : string).

(** A [pathlib] path under the root, as its components. *)
Definition Path : Type := list string.

(** [str(path)] *)
Definition path_str (p : Path) : string := "/" ++ String.concat "/" p.

Fixpoint path_eqb (p q : Path) : bool :=
  match p, q with
  | [], [] => true
  | a :: p', b :: q' => String.eqb a b && path_eqb p' q'
  | _, _ => false
  end.

(** The paths that exist, with what is there. *)
Definition Disk : Type := Path -> option node.

Definition put (p : Path) (n : node) (d : Disk) : Disk :=
  fun q => if path_eqb q p then Some n else d q.

(** The root is always there. *)
Definition node_at (d : Disk) (p : Path) : option node :=
  match p with
  | [] => Some Dir
  | _ => d p
  end.

Definition parent (p : Path) : Path := removelast p.

(** What [requests.get(url, stream=True)] meets: no connection, or a
    reply with its status code, the chunks [iter_content] yields, and
    whether the stream ends well or breaks after them. *)
Inductive response : Type :=
| Unreachable
| Reply (status : Z) (chunks : list string) (complete : bool).

Inductive error : Type :=
| ConnectionError
| HTTPError (status : Z)
| ChunkedEncodingError
| FileNotFoundError (p : Path)
| NotADirectoryError (p : Path)
| IsADirectoryError (p : Path)
| BadZipFile
| ExtractError (msg : string).

Inductive result (A : Type) : Type :=
| Done (a : A)
| Failed (e : error).
Arguments Done {A} a.
Arguments Failed {A} e.

(** The [zipfile] module: reading an archive ([None] for bytes that are
    no zip file) and [extractall], which gives the disk it leaves also
    when it fails. *)
Class ZipFile : Type := {
  Archive : Type;
  zip_read : string -> option Archive;
  extractall : Archive -> Path -> Disk -> result unit * Disk
}.

Inductive action : Type :=
| Requested (url : string)
| Extracted (archive dest : Path).

(** The machine the helper runs on; [journal] has the most recent action
    first. *)
Record Host : Type := {
  disk : Disk;
  cwd : Path;
  net : string -> response;
  journal : list action
}.

Definition P (A : Type) : Type := Host -> result A * Host.

Definition pret {A : Type} (a : A) : P A := fun h => (Done a, h).
Definition fail {A : Type} (e : error) : P A := fun h => (Failed e, h).

Definition pbind {A B : Type} (m : P A) (k : A -> P B) : P B :=
  fun h =>
    match m h with
    | (Done a, h') => k a h'
    | (Failed e, h') => (Failed e, h')
    end.

Definition get_host : P Host := fun h => (Done h, h).

Definition set_disk (d : Disk) : P unit :=
  fun h =>
    (Done tt,
     {| disk := d; cwd := cwd h; net := net h; journal := journal h |}).

Definition note (a : action) : P unit :=
  fun h =>
    (Done tt,
     {| disk := disk h; cwd := cwd h; net := net h;
        journal := a :: journal h |}).

Declare Scope prov_scope.
Notation "x <- c1 ;; c2" := (pbind c1 (fun x => c2))
  (at level 61, c1 at next level, right associativity) : prov_scope.
Notation "c1 ;; c2" := (pbind c1 (fun _ => c2))
  (at level 61, right associativity) : prov_scope.
#[local] Open Scope prov_scope.

(** [path.exists()] *)
Definition path_exists (p : Path) : P bool :=
  h <- get_host ;;
  pret (match node_at (disk h) p with
        | Some _ => true
        | None => false
        end).

(** The parent of a path to create must be a directory. *)
Definition check_parent (p : Path) : P unit :=
  h <- get_host ;;
  match node_at (disk h) (parent p) with
  | Some Dir => pret tt
  | Some (File _) => fail (NotADirectoryError p)
  | None => fail (FileNotFoundError p)
  end.

(** [path.mkdir()], on a path that does not exist *)
Definition mkdir (p : Path) : P unit :=
  check_parent p ;;
  h <- get_host ;;
  set_disk (put p Dir (disk h)).

(** [path.open("wb")]: the file is created empty, or emptied *)
Definition open_wb (p : Path) : P unit :=
  check_parent p ;;
  h <- get_host ;;
  match node_at (disk h) p with
  | Some Dir => fail (IsADirectoryError p)
  | _ => set_disk (put p (File "") (disk h))
  end.

(** [f.write(chunk)] on the file opened at [p] *)
Definition write (p : Path) (chunk : string) : P unit :=
  h <- get_host ;;
  match disk h p with
  | Some (File content) => set_disk (put p (File (content ++ chunk)) (disk h))
  | _ => pret tt
  end.

Fixpoint write_all (p : Path) (chunks : list string) : P unit :=
  match chunks with
  | [] => pret tt
  | chunk :: chunks' => write p chunk ;; write_all p chunks'
  end.

Definition url : string :=
  "https://www.codabench.org/datasets/download/"
  ++ "9c99a23c-f199-405a-b795-b42ea2dd652d/".

(** The body of [if not file.exists()] *)
Definition download (file : Path) : P unit :=
  note (Requested url) ;;
  h <- get_host ;;
  match net h url with
  | Unreachable => fail ConnectionError
  | Reply status chunks complete =>
      (* r.raise_for_status() *)
      if ((400 <=? status) && (status <? 600))%Z
      then fail (HTTPError status)
      else
        open_wb file ;;
        write_all file chunks ;;
        if complete then pret tt else fail ChunkedEncodingError
  end.

Section Helper.
Context {L : Libraries} {Zp : ZipFile}.

(** The body of [if not input_data.exists()] *)
Definition extract (file file_read_loc : Path) : P unit :=
  h <- get_host ;;
  match node_at (disk h) file with
  | None => fail (FileNotFoundError file)
  | Some Dir => fail (IsADirectoryError file)
  | Some (File bytes) =>
      match zip_read bytes with
      | None => fail BadZipFile
      | Some archive =>
          note (Extracted file file_read_loc) ;;
          h <- get_host ;;
          let '(r, d) := extractall archive file_read_loc (disk h) in
          set_disk d ;;
          match r with
          | Done _ => pret tt
          | Failed e => fail e
          end
      end
  end.

(** [Data(input_dir)], as an object *)
Definition new_Data (input_dir : string) : Data :=
  {| Data__train_set := Bound None;
     Data__test_set := None;
     input_dir := input_dir;
     ground_truth_mus := Unbound |}.

(** [if not path.exists(): body] *)
Definition unless_exists (p : Path) (body : P unit) : P unit :=
  there <- path_exists p ;;
  if there then pret tt else body.

Definition Neurips2024_public_dataset : P Data :=
  h <- get_host ;;
  let current_path := cwd h in
  let file_read_loc := (current_path ++ ["public_data"])%list in
  unless_exists file_read_loc (mkdir file_read_loc) ;;
  let file := (file_read_loc ++ ["public_data.zip"])%list in
  unless_exists file (download file) ;;
  let input_data := (file_read_loc ++ ["input_data"])%list in
  unless_exists input_data (extract file file_read_loc) ;;
  pret (new_Data
          (path_str (current_path ++ ["public_data"] ++ ["input_data"])%list)).

(** All the chunks, end to end. *)
Fixpoint concat_all (chunks : list string) : string :=
  match chunks with
  | [] => ""
  | chunk :: chunks' => chunk ++ concat_all chunks'
  end.

(** The three paths the helper works with. *)
Definition public_data (h : Host) : Path := (cwd h ++ ["public_data"])%list.
Definition archive_file (h : Host) : Path :=
  (public_data h ++ ["public_data.zip"])%list.
Definition input_data (h : Host) : Path :=
  (public_data h ++ ["input_data"])%list.

Definition present (h : Host) (p : Path) : bool :=
  match node_at (disk h) p with
  | Some _ => true
  | None => false
  end.

Definition is_request (a : action) : bool :=
  match a with
  | Requested _ => true
  | Extracted _ _ => false
  end.

Definition requests (j : list action) : list action := filter is_request j.

(** The manager the helper returns on host [h]. *)
Definition manager (h : Host) : Data :=
  new_Data (path_str (cwd h ++ ["public_data"; "input_data"])%list).

(** The same machine facing another network. *)
Definition with_net (n : string -> response) (h : Host) : Host :=
  {| disk := disk h; cwd := cwd h; net := n; journal := journal h |}.

(** [extractall] removes nothing: what is on the disk stays on it. *)
Definition extractall_keeps : Prop :=
  forall archive dest d p,
    node_at d p <> None ->
    node_at (snd (extractall archive dest d)) p <> None.

(** From [h] to [h'] nothing was removed from the disk, and the working
    directory and the network are the same. *)
Definition grows (h h' : Host) : Prop :=
  cwd h' = cwd h /\ net h' = net h /\
  forall p, present h p = true -> present h' p = true.

Definition error_status (status : Z) : bool :=
  ((400 <=? status) && (status <? 600))%Z.
End Helper.
End Provisioner.

(** ** A small machine, for concrete runs of the helper *)
Module ToyHost.
Import Provisioner.

(** The one archive the stand-in for [zipfile] knows, and its bytes. *)
Definition entries : list (Path * node) :=
  [(["input_data"], Dir);
   (["input_data"; "train"], Dir);
   (["input_data"; "README"], File "public data")].

Definition archive_bytes : string := "PK-toy".

Definition unpack (archive : list (Path * node)) (dest : Path) (d : Disk)
  : result unit * Disk :=
  (Done tt,
   fold_left (fun d e => put (dest ++ fst e)%list (snd e) d) archive d).

Definition zip : ZipFile :=
  Build_ZipFile
    (fun bytes => if String.eqb bytes archive_bytes then Some entries else None)
    unpack.

Definition home : Path := ["home"; "user"].

Definition disk_of (tree : list (Path * node)) : Disk :=
  fun p => option_map snd (find (fun e => path_eqb p (fst e)) tree).

(** Nothing but the working directory. *)
Definition bare_tree : list (Path * node) :=
  [(["home"], Dir); (["home"; "user"], Dir)].

(** An archive that is no zip file, and nothing extracted. *)
Definition stale_tree : list (Path * node) :=
  bare_tree ++
  [(["home"; "user"; "public_data"], Dir);
   (["home"; "user"; "public_data"; "public_data.zip"], File "<html>")].

(** A regular file where the directory should be. *)
Definition blocked_tree : list (Path * node) :=
  bare_tree ++ [(["home"; "user"; "public_data"], File "notes")].

Definition serving : string -> response :=
  fun _ => Reply 200 ["PK-"; "toy"] true.
Definition breaking : string -> response :=
  fun _ => Reply 200 ["PK-"] false.
Definition unreachable : string -> response := fun _ => Unreachable.

Definition host (tree : list (Path * node)) (n : string -> response) : Host :=
  {| disk := disk_of tree; cwd := home; net := n; journal := [] |}.

(** The machine after a first call that went well. *)
Definition provisioned : Host :=
  snd (@Neurips2024_public_dataset Toy.libraries zip (host bare_tree serving)).
End ToyHost.

(** * Properties *)

(** ** Running a method body symbolically *)

Ltac unfold_monad :=
  unfold read_parquet;
  unfold open_read, print, emit, get_self, get_world, modify_self,
    getattr_train_set, delattr_train_set, or_raise, lift_result,
    bind, ret, raise, extend_log in *.

(** Splits on what the next read or decoding step gives. *)
Ltac case_scrutinee :=
  match goal with
  | H : ?x = _ |- context [match ?x with _ => _ end] => rewrite H
  | |- context [match fs ?w ?p with _ => _ end] =>
      destruct (fs w p) eqn:?
  | |- context [match np_array_float ?x with _ => _ end] =>
      destruct (np_array_float x) eqn:?
  | |- context [match json_loads ?x with _ => _ end] =>
      destruct (json_loads x) eqn:?
  | |- context [match parquet_decode ?x with _ => _ end] =>
      destruct (parquet_decode x) eqn:?
  | |- context [match json_getitem ?x ?k with _ => _ end] =>
      destruct (json_getitem x k) eqn:?
  end; cbn.

Ltac log_prefix l :=
  lazymatch l with
  | ?e :: ?l' => let p := log_prefix l' in constr:(e :: p)
  | _ => constr:(@nil event)
  end.

(** Supplies the events a run has added to the log. *)
Ltac exists_new_events :=
  match goal with
  | |- context [ {| fs := _; ambient := _; log := ?l |} ] =>
      let p := log_prefix l in exists p
  end.

Ltac opened_paths l :=
  lazymatch l with
  | Open ?p :: ?l' => let ps := opened_paths l' in constr:(p :: ps)
  | _ => constr:(@nil string)
  end.

(** Supplies the paths a run has opened since its first line. *)
Ltac exists_opened_paths :=
  match goal with
  | |- context [ {| fs := _; ambient := _; log := ?l |} ] =>
      let ps := opened_paths l in exists ps
  end.

Section Runs.
Context {L : Libraries} {S : Systematics L}.

#[local] Opaque path_join splitlines.

Lemma extend_log_nil (st : State) : extend_log [] st = st.
Proof. destruct st as [d [f a l]]. reflexivity. Qed.

Lemma extend_log_app (n1 n2 : list event) (st : State) :
  extend_log n1 (extend_log n2 st) = extend_log (n1 ++ n2) st.
Proof. unfold extend_log. cbn. now rewrite app_assoc. Qed.

(** [load_train_set], case by case: a train file that cannot be read
    ends the call with the manager as it was; otherwise the partition
    is installed and the call goes on to [test/settings/data.json]. *)
Lemma load_train_set_run (st : State) :
  let dir := input_dir (self st) in
  match train_files (world st) dir with
  | None =>
      exists e paths,
        load_train_set st =
        (Raise e,
         extend_log (map Open paths ++ [Print "[*] Loading Train data"]) st)
  | Some ts =>
      let st1 :=
        {| self := set_train_set (Bound (Some ts)) (self st);
           world := world (extend_log (train_log dir) st) |} in
      let tail :=
        [Open (test_settings_file dir); Print "None";
         Print (DataFrame_info (data ts))] in
      match ground_truth_file (world st) dir with
      | Raise e => load_train_set st = (Raise e, extend_log tail st1)
      | Ok v =>
          load_train_set st =
          (Ok tt,
           extend_log (train_loaded_banner :: tail)
             {| self := set_ground_truth_mus (Bound v) (self st1);
                world := world st1 |})
      end
  end.
Proof.
  destruct st as [d w]. cbn.
  unfold train_files, ground_truth_file, decoded, load_train_set, train_log,
    train_labels_file, train_settings_file, train_weights_file,
    train_detailed_labels_file, train_data_file, test_settings_file.
  unfold_monad. cbn.
  repeat case_scrutinee.
  all: try reflexivity.
  all: eexists; exists_opened_paths; reflexivity.
Qed.

(** [load_test_set], case by case: the first category file that cannot
    be read ends the call with the manager as it was; when there is
    none the four tables are installed. *)
Lemma load_test_set_run (st : State) :
  let dir := input_dir (self st) in
  match first_unreadable (world st) dir with
  | Some key =>
      exists new,
        load_test_set st =
        (Raise (read_error (world st) dir key), extend_log new st) /\
        calls new = []
  | None =>
      exists ts,
        load_test_set st =
        (Ok tt,
         extend_log (test_log dir)
           {| self := set_test_set (Some ts) (self st);
              world := world st |}) /\
        dict_keys ts = categories /\
        forall key, In key categories ->
          decoded (world st) parquet_decode (category_file dir key) =
          dict_get key ts
  end.
Proof.
  destruct st as [d w]. cbn.
  unfold first_unreadable, unreadable, read_error, decoded, load_test_set,
    test_log, category_file, categories.
  unfold_monad. cbn.
  repeat case_scrutinee.
  all: try (exists_new_events; split; reflexivity).
  eexists. split; [reflexivity|]. split; [reflexivity|].
  intros key [<-|[<-|[<-|[<-|[]]]]]; cbn; repeat case_scrutinee; assumption.
Qed.
End Runs.

Section Calls.
Context {L : Libraries} {S : Systematics L}.

#[local] Opaque path_join splitlines.

Lemma get_train_set_run (st : State) :
  get_train_set st =
  (match Data__train_set (self st) with
   | Bound v => Ok v
   | Unbound => Raise (AttributeError "_Data__train_set")
   end, st).
Proof.
  unfold get_train_set. unfold_monad. cbn.
  destruct (Data__train_set (self st)); reflexivity.
Qed.

Lemma get_test_set_run (st : State) :
  get_test_set st = (Ok (Data__test_set (self st)), st).
Proof. reflexivity. Qed.

Lemma delete_train_set_run (st : State) :
  delete_train_set st =
  match Data__train_set (self st) with
  | Bound _ =>
      (Ok tt, {| self := set_train_set Unbound (self st); world := world st |})
  | Unbound => (Raise (AttributeError "_Data__train_set"), st)
  end.
Proof.
  unfold delete_train_set. unfold_monad. cbn.
  destruct (Data__train_set (self st)); reflexivity.
Qed.

(** The two steps of [generate_psuedo_exp_data], whatever the stored test
    partition is: no test of it comes before the bootstrap call. *)
Lemma generate_psuedo_exp_data_run
  (mu tes jes sm tb di bk seed : pyarg) (st : State) :
  generate_psuedo_exp_data mu tes jes sm tb di bk seed st =
  let '(r, test_set', ambient') :=
    get_bootstraped_dataset (ambient (world st)) (Data__test_set (self st))
      mu tb di bk seed in
  let st1 :=
    {| self := set_test_set test_set' (self st);
       world :=
         {| fs := fs (world st);
            ambient := ambient';
            log := Call_get_bootstraped_dataset (Data__test_set (self st))
                     mu tb di bk seed :: log (world st) |} |} in
  match r with
  | Raise e => (Raise e, st1)
  | Ok o =>
      (fst (get_systematics_dataset o tes jes sm),
       extend_log [Call_get_systematics_dataset o tes jes sm] st1)
  end.
Proof.
  unfold generate_psuedo_exp_data, call_get_bootstraped_dataset,
    call_get_systematics_dataset.
  unfold_monad. cbn.
  destruct (get_bootstraped_dataset _ _ _ _ _ _ _) as [[r ts'] a'].
  destruct r as [o|e]; cbn; [|reflexivity].
  destruct (fst (get_systematics_dataset o tes jes sm)); reflexivity.
Qed.

Lemma call_systematics_run (tes jes sm tb di bk : pyarg) (st : State) :
  call_systematics tes jes sm tb di bk st =
  match Data__train_set (self st) with
  | Unbound => (Raise (AttributeError "_Data__train_set"), st)
  | Bound v =>
      (fst (systematics v tes jes sm tb di bk),
       {| self :=
            set_train_set (Bound (snd (systematics v tes jes sm tb di bk)))
              (self st);
          world :=
            world (extend_log [Call_systematics v tes jes sm tb di bk] st)
       |})
  end.
Proof.
  unfold call_systematics. unfold_monad. cbn.
  destruct (Data__train_set (self st)) as [|v]; [reflexivity|].
  destruct (systematics v tes jes sm tb di bk) as [r v']. cbn.
  destruct r; reflexivity.
Qed.

Lemma get_syst_train_set_run (tes jes sm tb di bk : pyarg) (st : State) :
  get_syst_train_set tes jes sm tb di bk st =
  match Data__train_set (self st) with
  | Unbound => (Raise (AttributeError "_Data__train_set"), st)
  | Bound (Some _) => call_systematics tes jes sm tb di bk st
  | Bound None =>
      match load_train_set st with
      | (Ok _, st') => call_systematics tes jes sm tb di bk st'
      | (Raise e, st') => (Raise e, st')
      end
  end.
Proof.
  unfold get_syst_train_set. unfold bind at 1. unfold getattr_train_set.
  unfold bind at 1. unfold get_self at 1. cbn.
  destruct (Data__train_set (self st)) as [|[ts|]]; reflexivity.
Qed.
End Calls.

(** ** The train partition *)

Section Train.
Context {L : Libraries} {S : Systematics L}.

#[local] Opaque path_join splitlines.

(** C1 (amended). [load_train_set] is all-or-nothing over the five train
    files. When one of them is missing or does not decode, the call raises
    and the manager is exactly as before. When all five are read, the
    partition they hold is installed, the other attributes being kept;
    the ground-truth parameters are then replaced exactly when the call
    returns, and are as before when it raises on
    [test/settings/data.json]. *)
Theorem load_train_set_atomic_on_train_files (st : State) :
  let r := load_train_set st in
  match train_files (world st) (input_dir (self st)) with
  | None => (exists e, outcome r = Raise e) /\ self_after r = self st
  | Some ts =>
      Data__train_set (self_after r) = Bound (Some ts) /\
      Data__test_set (self_after r) = Data__test_set (self st) /\
      input_dir (self_after r) = input_dir (self st) /\
      match outcome r with
      | Ok _ =>
          exists v,
            ground_truth_file (world st) (input_dir (self st)) = Ok v /\
            ground_truth_mus (self_after r) = Bound v
      | Raise e =>
          ground_truth_file (world st) (input_dir (self st)) = Raise e /\
          ground_truth_mus (self_after r) = ground_truth_mus (self st)
      end
  end.
Proof.
  cbn zeta. pose proof (load_train_set_run st) as H. cbn zeta in H.
  destruct (train_files (world st) (input_dir (self st))) as [ts|].
  - destruct (ground_truth_file (world st) (input_dir (self st))) as [v|e];
      rewrite H; cbn; repeat split; eauto.
  - destruct H as (e & paths & ->). cbn. eauto.
Qed.

(** C2 (the code at the failing input). On a manager just constructed the
    first [delete_train_set] returns and unbinds the attribute, and the
    second raises [AttributeError]. *)
Theorem delete_train_set_twice_raises (dir : string) (w : World) :
  let first := delete_train_set (constructed dir w) in
  let second := delete_train_set (snd first) in
  outcome first = Ok tt /\
  Data__train_set (self_after first) = Unbound /\
  outcome second = Raise (AttributeError "_Data__train_set") /\
  snd second = snd first.
Proof. repeat split. Qed.

(** C4 (the code at the failing input). After [delete_train_set],
    [get_train_set] raises [AttributeError] instead of returning [None]. *)
Theorem get_train_set_after_delete_raises (dir : string) (w : World) :
  let deleted := snd (delete_train_set (constructed dir w)) in
  outcome (get_train_set deleted) =
  Raise (AttributeError "_Data__train_set").
Proof. reflexivity. Qed.

(** C5 (the code at the failing input). After [delete_train_set],
    [get_syst_train_set] raises [AttributeError] on its test of the
    attribute: no file is opened and [systematics] is not called. *)
Theorem get_syst_train_set_after_delete_raises
  (dir : string) (w : World) (tes jes sm tb di bk : pyarg) :
  let deleted := snd (delete_train_set (constructed dir w)) in
  let r := get_syst_train_set tes jes sm tb di bk deleted in
  outcome r = Raise (AttributeError "_Data__train_set") /\
  log_after r = log w /\
  snd r = deleted.
Proof. repeat split. Qed.

(** The accessors change nothing, whatever the state. *)
Lemma accessors_leave_state (st : State) :
  snd (get_train_set st) = st /\ snd (get_test_set st) = st.
Proof. now rewrite get_train_set_run, get_test_set_run. Qed.

(** While the attribute is bound, [get_train_set] returns what it holds,
    and [get_test_set] always does. *)
Lemma accessors_return_stored (st : State) (v : option TrainSet) :
  Data__train_set (self st) = Bound v ->
  outcome (get_train_set st) = Ok v /\
  outcome (get_test_set st) = Ok (Data__test_set (self st)).
Proof. intros H. rewrite get_train_set_run, H. now split. Qed.

(** [delete_train_set] on a bound attribute touches nothing else. *)
Lemma delete_train_set_frame (st : State) (v : option TrainSet) :
  Data__train_set (self st) = Bound v ->
  let r := delete_train_set st in
  outcome r = Ok tt /\
  Data__train_set (self_after r) = Unbound /\
  Data__test_set (self_after r) = Data__test_set (self st) /\
  ground_truth_mus (self_after r) = ground_truth_mus (self st) /\
  world (snd r) = world st.
Proof.
  intros H. cbn zeta. rewrite delete_train_set_run, H. now repeat split.
Qed.

(** With a partition installed, [get_syst_train_set] opens no file and
    hands the stored partition to [systematics]. *)
Lemma get_syst_train_set_loaded
  (st : State) (ts : TrainSet) (tes jes sm tb di bk : pyarg) :
  Data__train_set (self st) = Bound (Some ts) ->
  let r := get_syst_train_set tes jes sm tb di bk st in
  outcome r = fst (systematics (Some ts) tes jes sm tb di bk) /\
  log_after r =
  Call_systematics (Some ts) tes jes sm tb di bk :: log (world st).
Proof.
  intros H. cbn zeta.
  rewrite get_syst_train_set_run, H, call_systematics_run, H. now split.
Qed.

(** With [None] stored and an input directory that loads,
    [get_syst_train_set] runs [load_train_set] once, then hands the
    partition just installed to [systematics]. *)
Lemma get_syst_train_set_loads_once
  (st : State) (ts : TrainSet) (v : pyjson) (tes jes sm tb di bk : pyarg) :
  Data__train_set (self st) = Bound None ->
  train_files (world st) (input_dir (self st)) = Some ts ->
  ground_truth_file (world st) (input_dir (self st)) = Ok v ->
  let r := get_syst_train_set tes jes sm tb di bk st in
  outcome r = fst (systematics (Some ts) tes jes sm tb di bk) /\
  log_after r =
  Call_systematics (Some ts) tes jes sm tb di bk
    :: log_after (load_train_set st) /\
  opens (log_after r) =
  Open (test_settings_file (input_dir (self st)))
    :: opens (train_log (input_dir (self st))) ++ opens (log (world st)).
Proof.
  intros Hnone Hts Hv. cbn zeta.
  pose proof (load_train_set_run st) as H. cbn zeta in H.
  rewrite Hts, Hv in H.
  rewrite get_syst_train_set_run, Hnone, H, call_systematics_run. cbn.
  repeat split.
Qed.
End Train.

(** ** The test partition and the ground-truth parameters *)

Section Test.
Context {L : Libraries} {S : Systematics L}.

#[local] Opaque path_join splitlines.

Lemma absent_is_unreadable (w : World) (dir key : string) :
  fs w (category_file dir key) = None -> unreadable w dir key = true.
Proof. unfold unreadable, decoded. now intros ->. Qed.

(** C6 (amended). When a category file is absent [load_test_set] raises
    and leaves the manager exactly as it was; the exception is that of the
    first file, in the order ztautau, diboson, ttbar, htautau, that cannot
    be read: [FileNotFoundError] if that file is absent, [ArrowInvalid] if
    it is there but is not parquet. When the four files are there and
    decode, the call returns and the partition installed has exactly the
    four category keys. *)
Theorem load_test_set_all_or_nothing (st : State) :
  let dir := input_dir (self st) in
  let r := load_test_set st in
  (forall key,
      In key categories -> fs (world st) (category_file dir key) = None ->
      exists first,
        first_unreadable (world st) dir = Some first /\
        outcome r = Raise (read_error (world st) dir first) /\
        (fs (world st) (category_file dir first) = None ->
         raises r MissingFile) /\
        (fs (world st) (category_file dir first) <> None ->
         raises r MalformedData) /\
        self_after r = self st) /\
  ((forall key, In key categories -> unreadable (world st) dir key = false) ->
   outcome r = Ok tt /\
   exists ts,
     Data__test_set (self_after r) = Some ts /\ dict_keys ts = categories).
Proof.
  cbn zeta. pose proof (load_test_set_run st) as H. cbn zeta in H.
  split.
  - intros key Hin Habs.
    destruct (first_unreadable (world st) (input_dir (self st)))
      as [first|] eqn:Hfirst.
    + destruct H as (new & -> & _). exists first. cbn.
      repeat split; unfold raises, read_error; cbn.
      * intros ->. eexists. split; reflexivity.
      * destruct (fs (world st) (category_file (input_dir (self st)) first));
          [|congruence].
        intros _. eexists. split; reflexivity.
    + unfold first_unreadable in Hfirst.
      apply (find_none _ _ Hfirst) in Hin.
      now rewrite (absent_is_unreadable _ _ _ Habs) in Hin.
  - intros Hall.
    destruct (first_unreadable (world st) (input_dir (self st)))
      as [first|] eqn:Hfirst.
    + unfold first_unreadable in Hfirst. apply find_some in Hfirst.
      destruct Hfirst as [Hin Hbad]. now rewrite (Hall _ Hin) in Hbad.
    + destruct H as (ts & -> & Hkeys & _). cbn. eauto.
Qed.

(** [load_train_set] neither reads nor writes the test partition: run on
    the same manager with another stored test partition, it does the
    same, that partition apart. *)
Lemma load_train_set_frame_test_set (v : option TestSet) (st : State) :
  load_train_set (with_test_set v st) =
  (fst (load_train_set st), with_test_set v (snd (load_train_set st))).
Proof.
  destruct st as [d w]. unfold load_train_set, with_test_set.
  unfold_monad. cbn.
  repeat case_scrutinee; reflexivity.
Qed.

(** C7. When [load_train_set] returns, the ground-truth parameters it has
    cached are the value at key [ground_truth_mus] of the JSON document
    that [test/settings/data.json] holds during the call. Neither the
    outcome nor the cached value depends on the stored test partition,
    and a later [load_test_set] leaves the cached value in place. *)
Theorem ground_truth_mus_from_test_settings
  (st : State) (Hok : outcome (load_train_set st) = Ok tt) :
  let dir := input_dir (self st) in
  let loaded := load_train_set st in
  (exists text j v,
      fs (world st) (test_settings_file dir) = Some text /\
      json_loads text = Some j /\
      json_getitem j "ground_truth_mus" = Ok v /\
      ground_truth_mus (self_after loaded) = Bound v) /\
  (forall ts,
      outcome (load_train_set (with_test_set ts st)) = Ok tt /\
      ground_truth_mus (self_after (load_train_set (with_test_set ts st))) =
      ground_truth_mus (self_after loaded)) /\
  ground_truth_mus (self_after (load_test_set (snd loaded))) =
  ground_truth_mus (self_after loaded).
Proof.
  cbn zeta. split; [|split].
  - pose proof (load_train_set_run st) as H. cbn zeta in H.
    destruct (train_files (world st) (input_dir (self st))) as [ts|].
    + unfold ground_truth_file in H.
      destruct (fs (world st) (test_settings_file (input_dir (self st))))
        as [text|] eqn:Htext; [|rewrite H in Hok; discriminate].
      destruct (json_loads text) as [j|] eqn:Hj;
        [|rewrite H in Hok; discriminate].
      destruct (json_getitem j "ground_truth_mus") as [v|e] eqn:Hv;
        [|rewrite H in Hok; discriminate].
      exists text, j, v. rewrite H. now repeat split.
    + destruct H as (e & paths & H). rewrite H in Hok. discriminate.
  - intros ts. rewrite load_train_set_frame_test_set. now split.
  - pose proof (load_test_set_run (snd (load_train_set st))) as H.
    cbn zeta in H.
    destruct (first_unreadable _ _).
    + destruct H as (new & -> & _). reflexivity.
    + destruct H as (ts & -> & _). reflexivity.
Qed.
End Test.

(** ** The orchestrator *)

Section Orchestrator.
Context {L : Libraries} {S : Systematics L}.

#[local] Opaque path_join splitlines.

(** C3 (amended). With no test partition stored,
    [generate_psuedo_exp_data] makes no test of its own: it opens no file,
    calls the bootstrap step once on [None], calls the systematics step
    once on the result when the bootstrap step returns, and returns or
    raises what the collaborator does. The stored test partition is what
    the bootstrap step leaves of its argument. *)
Theorem generate_on_absent_test_set
  (mu tes jes sm tb di bk seed : pyarg) (st : State)
  (Habsent : Data__test_set (self st) = None) :
  let r := generate_psuedo_exp_data mu tes jes sm tb di bk seed st in
  let boot :=
    get_bootstraped_dataset (ambient (world st)) None mu tb di bk seed in
  match fst (fst boot) with
  | Raise e =>
      outcome r = Raise e /\
      log_after r =
      Call_get_bootstraped_dataset None mu tb di bk seed :: log (world st)
  | Ok o =>
      outcome r = fst (get_systematics_dataset o tes jes sm) /\
      log_after r =
      Call_get_systematics_dataset o tes jes sm
        :: Call_get_bootstraped_dataset None mu tb di bk seed
        :: log (world st)
  end /\
  Data__test_set (self_after r) = snd (fst boot) /\
  fs (world (snd r)) = fs (world st).
Proof.
  cbn zeta. rewrite generate_psuedo_exp_data_run, Habsent.
  destruct (get_bootstraped_dataset _ _ _ _ _ _ _) as [[[o|e] ts'] a'];
    cbn; repeat split.
Qed.

(** C8. When the collaborator's functions do not change the object they
    are passed, [generate_psuedo_exp_data] leaves every attribute of the
    manager as it was, so a second call, with any parameters, hands the
    same stored test partition to the bootstrap step. *)
Theorem generate_leaves_manager_unchanged
  (Hpure : does_not_mutate_input)
  (mu tes jes sm tb di bk seed : pyarg) (st : State) :
  let r := generate_psuedo_exp_data mu tes jes sm tb di bk seed st in
  self_after r = self st /\
  forall mu' tes' jes' sm' tb' di' bk' seed',
    let r' :=
      generate_psuedo_exp_data mu' tes' jes' sm' tb' di' bk' seed' (snd r) in
    self_after r' = self st /\
    In (Call_get_bootstraped_dataset (Data__test_set (self st))
          mu' tb' di' bk' seed')
       (firstn 2 (log_after r')).
Proof.
  destruct Hpure as (Hboot & _ & _).
  assert (Hself : forall mu tes jes sm tb di bk seed st,
             self (snd (generate_psuedo_exp_data
                          mu tes jes sm tb di bk seed st)) =
             self st).
  { clear mu tes jes sm tb di bk seed st.
    intros mu tes jes sm tb di bk seed st.
    rewrite generate_psuedo_exp_data_run.
    specialize (Hboot (ambient (world st)) (Data__test_set (self st))
                  mu tb di bk seed).
    destruct (get_bootstraped_dataset _ _ _ _ _ _ _) as [[[o|e] ts'] a'];
      cbn in *; subst ts'; destruct st as [[tr te dir gt] w]; reflexivity. }
  unfold self_after, log_after. cbn zeta. split; [apply Hself|].
  intros mu' tes' jes' sm' tb' di' bk' seed'.
  split; [now rewrite !Hself|].
  rewrite (generate_psuedo_exp_data_run mu' tes' jes' sm' tb' di' bk' seed').
  rewrite Hself.
  destruct (get_bootstraped_dataset _ _ _ _ _ _ _) as [[[o|e] ts'] a'];
    cbn; auto.
Qed.

(** C9. When the bootstrap step is deterministic in its seed and input,
    two invocations with the same parameters on managers that store the
    same test partition have the same outcome, whatever else differs
    between the two states. *)
Theorem generate_deterministic
  (Hdet : bootstrap_deterministic)
  (mu tes jes sm tb di bk seed : pyarg) (st1 st2 : State)
  (Hsame : Data__test_set (self st1) = Data__test_set (self st2)) :
  outcome (generate_psuedo_exp_data mu tes jes sm tb di bk seed st1) =
  outcome (generate_psuedo_exp_data mu tes jes sm tb di bk seed st2).
Proof.
  rewrite !generate_psuedo_exp_data_run, Hsame.
  specialize (Hdet (ambient (world st1)) (ambient (world st2))
                (Data__test_set (self st2)) mu tb di bk seed).
  destruct (get_bootstraped_dataset (ambient (world st1)) _ _ _ _ _ _)
    as [[r1 ts1] a1].
  destruct (get_bootstraped_dataset (ambient (world st2)) _ _ _ _ _ _)
    as [[r2 ts2] a2].
  cbn in Hdet. subst r2. destruct r1; reflexivity.
Qed.
End Orchestrator.

(** ** The life of a manager *)

Section Lifecycle.
Context {L : Libraries} {S : Systematics L}.

#[local] Opaque path_join splitlines.

(** [load_train_set] binds [ground_truth_mus] when it returns, and leaves
    it alone when it raises. *)
Lemma load_train_set_ground_truth_mus (st : State) :
  match outcome (load_train_set st) with
  | Ok _ =>
      exists v, ground_truth_mus (self_after (load_train_set st)) = Bound v
  | Raise _ =>
      ground_truth_mus (self_after (load_train_set st)) =
      ground_truth_mus (self st)
  end.
Proof.
  pose proof (load_train_set_run st) as H. cbn zeta in H.
  destruct (train_files (world st) (input_dir (self st))) as [ts|].
  - destruct (ground_truth_file (world st) (input_dir (self st))) as [v|e];
      rewrite H; cbn; eauto.
  - destruct H as (e & paths & ->). reflexivity.
Qed.

(** Only a [load_train_set] that returns changes the ground-truth
    parameters. *)
Lemma invoke_keeps_ground_truth_mus (m : method) (st : State) :
  ~ load_train_returns m st ->
  ground_truth_mus (self (invoke m st)) = ground_truth_mus (self st).
Proof.
  assert (Hcall : forall tes jes sm tb di bk st,
             ground_truth_mus
               (self (snd (call_systematics tes jes sm tb di bk st))) =
             ground_truth_mus (self st)).
  { clear st. intros tes jes sm tb di bk st.
    rewrite call_systematics_run.
    destruct (Data__train_set (self st)); reflexivity. }
  destruct m as [| |mu tes jes sm tb di bk seed| | | |tes jes sm tb di bk];
    cbn [invoke load_train_returns]; intros Hnot.
  - pose proof (load_train_set_ground_truth_mus st) as H.
    destruct (outcome (load_train_set st)) as [[]|e]; [now elim Hnot|exact H].
  - pose proof (load_test_set_run st) as H. cbn zeta in H.
    destruct (first_unreadable (world st) (input_dir (self st))).
    + destruct H as (new & -> & _). reflexivity.
    + destruct H as (ts & -> & _). reflexivity.
  - rewrite generate_psuedo_exp_data_run.
    destruct (get_bootstraped_dataset _ _ _ _ _ _ _) as [[[o|e] ts'] a'];
      reflexivity.
  - now rewrite get_train_set_run.
  - now rewrite get_test_set_run.
  - rewrite delete_train_set_run.
    destruct (Data__train_set (self st)); reflexivity.
  - rewrite get_syst_train_set_run.
    destruct (Data__train_set (self st)) as [|[ts|]];
      [reflexivity|apply Hcall|].
    pose proof (load_train_set_ground_truth_mus st) as H.
    unfold outcome, self_after in *.
    destruct (load_train_set st) as [[[]|e] st']; cbn in *.
    + elim Hnot. now split.
    + exact H.
Qed.

(** C10. The constructor returns for every path and leaves the world as
    it is: it opens no file. On the manager constructed, both accessors
    return [None] and there is no [ground_truth_mus] attribute; through
    any later calls, and whatever happens to the files meanwhile, there is
    none as long as no [load_train_set] has returned, and there is one as
    soon as a [load_train_set] returns. *)
Theorem constructor_touches_nothing (dir : string) (w : World) :
  Data_init dir w = (Ok (self (constructed dir w)), w) /\
  outcome (get_train_set (constructed dir w)) = Ok None /\
  outcome (get_test_set (constructed dir w)) = Ok None /\
  ground_truth_mus (self (constructed dir w)) = Unbound /\
  (forall st,
      reaches_before_load (constructed dir w) st ->
      ground_truth_mus (self st) = Unbound) /\
  (forall st,
      outcome (load_train_set st) = Ok tt ->
      exists v,
        ground_truth_mus (self_after (load_train_set st)) = Bound v).
Proof.
  repeat split.
  - intros st Hreach.
    induction Hreach as [|m st Hreach IH Hnot|f a st Hreach IH].
    + reflexivity.
    + now rewrite invoke_keeps_ground_truth_mus.
    + exact IH.
  - intros st Hok.
    pose proof (load_train_set_ground_truth_mus st) as H.
    now rewrite Hok in H.
Qed.
End Lifecycle.


(** ** Concrete runs *)

Section Concrete.
Import Toy.

#[local] Transparent path_join splitlines.

Example load_train_set_on_empty_directory :
  outcome (load_train_set (fresh empty)) =
  Raise (FileNotFoundError "/input/train/labels/data.labels") /\
  train_state_of
    (Data__train_set (self_after (load_train_set (fresh empty)))) =
  TrainAbsent.
Proof. vm_compute. split; reflexivity. Qed.

Example load_train_set_raises_after_install :
  outcome (load_train_set (fresh train_only)) =
  Raise (FileNotFoundError "/input/test/settings/data.json") /\
  train_state_of (Data__train_set (self (fresh train_only))) =
  TrainAbsent /\
  train_state_of
    (Data__train_set (self_after (load_train_set (fresh train_only)))) =
  TrainLoaded.
Proof. vm_compute. repeat split. Qed.

(** C1 (as stated, refuted). With the five train files in place and no
    [test/settings/data.json], [load_train_set] raises
    [FileNotFoundError] after it has installed the train partition: the
    call has failed and the train partition is not what it was. *)
Lemma load_train_set_not_atomic : ~ load_train_atomic (fresh train_only).
Proof.
  destruct load_train_set_raises_after_install as (Hout & Hbefore & Hafter).
  unfold load_train_atomic. cbn zeta. rewrite Hout.
  intros [[Hok _]|[_ [Htrain _]]]; [discriminate Hok|].
  rewrite Htrain, Hbefore in Hafter. discriminate Hafter.
Qed.

Example generate_on_fresh_manager :
  List.length
    (calls
       (log_after
          (generate_psuedo_exp_data
             default_set_mu default_tes default_jes default_soft_met
             default_scale default_scale default_scale default_seed
             (fresh complete)))) = 1%nat.
Proof. vm_compute. reflexivity. Qed.

(** C3 (as stated, refuted). On a manager just constructed, whose test
    partition is absent, [generate_psuedo_exp_data] with its default
    arguments calls the bootstrap step on [None]; the exception it ends
    in is the one that step raises. *)
Lemma generate_does_not_refuse :
  Data__test_set (self (fresh complete)) = None /\
  ~ generate_refuses
      default_set_mu default_tes default_jes default_soft_met
      default_scale default_scale default_scale default_seed
      (fresh complete).
Proof.
  split; [reflexivity|].
  unfold generate_refuses. cbn zeta.
  intros [_ Hcalls]. apply (f_equal (@List.length _)) in Hcalls.
  rewrite generate_on_fresh_manager in Hcalls. discriminate Hcalls.
Qed.

(** The amended C3 on a manager just constructed: one call, the bootstrap
    step on [None], whose [TypeError] is what the caller gets. *)
Lemma generate_on_absent_test_set_witness :
  Data__test_set (self (fresh complete)) = None /\
  outcome
    (generate_psuedo_exp_data
       default_set_mu default_tes default_jes default_soft_met
       default_scale default_scale default_scale default_seed
       (fresh complete)) = Raise TypeError /\
  log_after
    (generate_psuedo_exp_data
       default_set_mu default_tes default_jes default_soft_met
       default_scale default_scale default_scale default_seed
       (fresh complete)) =
  [Call_get_bootstraped_dataset None
     (PInt 1) PNone PNone PNone (PInt 42)].
Proof.
  split; [reflexivity|].
  exact (proj1
           (generate_on_absent_test_set
              default_set_mu default_tes default_jes default_soft_met
              default_scale default_scale default_scale default_seed
              (fresh complete) eq_refl)).
Defined.

Example load_test_set_on_corrupt :
  outcome (load_test_set (fresh (world_of test_tree_corrupt))) =
  Raise ArrowInvalid /\
  fs (world (fresh (world_of test_tree_corrupt)))
    (category_file (input_dir (self (fresh (world_of test_tree_corrupt))))
       "diboson") = None.
Proof. vm_compute. split; reflexivity. Qed.

(** C6 (as stated, refuted). With [ztautau_data.parquet] present but not
    parquet and [diboson_data.parquet] absent, [load_test_set] raises
    [ArrowInvalid] on the first file: a category file is absent and the
    failure is not [MissingFile]. *)
Lemma load_test_set_malformed_before_missing :
  ~ load_test_complete_or_missing (fresh (world_of test_tree_corrupt)).
Proof.
  destruct load_test_set_on_corrupt as (Hout & Habsent).
  unfold load_test_complete_or_missing, raises. cbn zeta. rewrite Hout.
  intros [Hmissing _].
  destruct Hmissing as [(e & He & Hclass) _].
  - exists "diboson". split; [|exact Habsent]. right. left. reflexivity.
  - injection He as <-. discriminate Hclass.
Qed.

(** Four files that are present are not enough either: one that is not
    parquet ends the call with nothing installed. *)
Example load_test_set_on_present_corrupt :
  forallb
    (fun key =>
       match fs (world (fresh (world_of test_tree_present_corrupt)))
               (category_file "/input" key) with
       | Some _ => true
       | None => false
       end)
    categories = true /\
  outcome (load_test_set (fresh (world_of test_tree_present_corrupt))) =
  Raise ArrowInvalid /\
  match Data__test_set
          (self_after
             (load_test_set (fresh (world_of test_tree_present_corrupt))))
  with
  | Some _ => false
  | None => true
  end = true.
Proof. vm_compute. repeat split. Qed.

(** The amended C6 on a directory without [ttbar_data.parquet]. *)
Lemma load_test_set_all_or_nothing_witness :
  outcome (load_test_set (fresh (world_of test_tree_no_ttbar))) =
  Raise (FileNotFoundError "/input/test/data/ttbar_data.parquet") /\
  self_after (load_test_set (fresh (world_of test_tree_no_ttbar))) =
  self (fresh (world_of test_tree_no_ttbar)).
Proof.
  assert (Habsent :
            fs (world (fresh (world_of test_tree_no_ttbar)))
              (category_file
                 (input_dir (self (fresh (world_of test_tree_no_ttbar))))
                 "ttbar") = None)
    by (vm_compute; reflexivity).
  assert (Hfirst :
            first_unreadable (world (fresh (world_of test_tree_no_ttbar)))
              (input_dir (self (fresh (world_of test_tree_no_ttbar)))) =
            Some "ttbar")
    by (vm_compute; reflexivity).
  assert (Herror :
            read_error (world (fresh (world_of test_tree_no_ttbar)))
              (input_dir (self (fresh (world_of test_tree_no_ttbar))))
              "ttbar" =
            FileNotFoundError "/input/test/data/ttbar_data.parquet")
    by (vm_compute; reflexivity).
  destruct
    (proj1 (load_test_set_all_or_nothing
              (fresh (world_of test_tree_no_ttbar)))
       "ttbar" (or_intror (or_intror (or_introl eq_refl))) Habsent)
    as (first & Hfirst' & Hout & _ & _ & Hself).
  rewrite Hfirst in Hfirst'. injection Hfirst' as <-.
  rewrite Herror in Hout.
  split; [exact Hout|exact Hself].
Defined.

(** C7 on the complete directory. *)
Lemma ground_truth_mus_from_test_settings_witness :
  outcome (load_train_set (fresh complete)) = Ok tt /\
  (forall ts,
      ground_truth_mus
        (self_after (load_train_set (with_test_set ts (fresh complete)))) =
      ground_truth_mus (self_after (load_train_set (fresh complete)))) /\
  ground_truth_mus
    (self_after (load_test_set (snd (load_train_set (fresh complete))))) =
  ground_truth_mus (self_after (load_train_set (fresh complete))).
Proof.
  assert (Hok : outcome (load_train_set (fresh complete)) = Ok tt)
    by (vm_compute; reflexivity).
  split; [exact Hok|].
  destruct (ground_truth_mus_from_test_settings (fresh complete) Hok)
    as (_ & Hany & Hafter).
  split; [|exact Hafter].
  intros ts. exact (proj2 (Hany ts)).
Defined.

Example ground_truth_mus_of_complete :
  ground_truth_mus (self_after (load_train_set (fresh complete))) =
  Bound (JInt 2).
Proof. vm_compute. reflexivity. Qed.

Lemma toy_does_not_mutate_input :
  @does_not_mutate_input libraries collaborator.
Proof. repeat split. Defined.

Lemma toy_bootstrap_deterministic :
  @bootstrap_deterministic libraries collaborator.
Proof. intros a a' ts mu tb di bk seed. reflexivity. Defined.

(** C8 on the stand-in collaborator, which hands back what it is given. *)
Lemma generate_leaves_manager_unchanged_witness :
  @does_not_mutate_input libraries collaborator /\
  self_after
    (generate_psuedo_exp_data
       default_set_mu default_tes default_jes default_soft_met
       default_scale default_scale default_scale default_seed
       test_loaded) = self test_loaded.
Proof.
  split; [exact toy_does_not_mutate_input|].
  exact (proj1
           (generate_leaves_manager_unchanged toy_does_not_mutate_input
              default_set_mu default_tes default_jes default_soft_met
              default_scale default_scale default_scale default_seed
              test_loaded)).
Defined.

(** Without the assumption the stored partition does change: a bootstrap
    step that empties its argument empties the manager's test partition. *)
Example generate_with_mutating_bootstrap :
  Data__test_set (self test_loaded_clearing) =
  Some [("ztautau", ["z1"]); ("diboson", ["d1"; "d2"]);
        ("ttbar", []); ("htautau", ["h1"])] /\
  Data__test_set
    (self_after
       (generate_psuedo_exp_data
          default_set_mu default_tes default_jes default_soft_met
          default_scale default_scale default_scale default_seed
          test_loaded_clearing)) = Some [].
Proof. vm_compute. split; reflexivity. Qed.

(** C9 on the parameter tuple of the determinism property: [mu=1.0],
    [tes=1.0], [jes=1.0], [soft_met=0.0], the three scales [None],
    [seed=42]; the
    second invocation is on the same manager later on, where the ambient
    state is another. *)
Lemma generate_deterministic_witness :
  let generate :=
    generate_psuedo_exp_data
      (PFloat 1.0) (PFloat 1.0) (PFloat 1.0) (PFloat 0.0)
      PNone PNone PNone (PInt 42) in
  @bootstrap_deterministic libraries collaborator /\
  Data__test_set (self test_loaded) =
  Data__test_set (self test_loaded_later) /\
  ambient (world test_loaded) <> ambient (world test_loaded_later) /\
  outcome (generate test_loaded) = outcome (generate test_loaded_later).
Proof.
  cbn zeta.
  split; [exact toy_bootstrap_deterministic|].
  split; [reflexivity|].
  split; [vm_compute; discriminate|].
  exact (generate_deterministic toy_bootstrap_deterministic
           (PFloat 1.0) (PFloat 1.0) (PFloat 1.0) (PFloat 0.0)
           PNone PNone PNone (PInt 42)
           test_loaded test_loaded_later eq_refl).
Defined.

(** After [delete_train_set], [load_train_set] binds the attribute
    again. *)
Example load_after_delete :
  let deleted := snd (delete_train_set (fresh complete)) in
  train_state_of (Data__train_set (self deleted)) = TrainUnbound /\
  outcome (load_train_set deleted) = Ok tt /\
  train_state_of (Data__train_set (self_after (load_train_set deleted))) =
  TrainLoaded.
Proof. vm_compute. repeat split. Qed.
End Concrete.

(** * More of the code *)

(** ** Lines and paths *)

Section Lines_and_paths.

Lemma rev_string_rev_string (s acc acc' : string) :
  rev_string acc' (rev_string acc s) = rev_string (s ++ acc') acc.
Proof.
  revert acc acc'. induction s as [|c s IH]; intros acc acc'; cbn.
  - reflexivity.
  - now rewrite IH.
Qed.

Lemma append_empty_r (s : string) : s ++ "" = s.
Proof. induction s as [|c s IH]; cbn; [reflexivity|now rewrite IH]. Qed.

Lemma splitlines_from_line (l rest cur : string) :
  no_linebreak l = true ->
  splitlines_from cur (l ++ newline ++ rest) =
  rev_string "" (rev_string cur l) :: splitlines_from "" rest.
Proof.
  revert cur. induction l as [|c l IH]; intros cur Hl.
  - cbn. destruct rest as [|c' rest']; reflexivity.
  - cbn in Hl. apply andb_prop in Hl. destruct Hl as [Hc Hl].
    cbn [append splitlines_from].
    destruct (is_linebreak c); [discriminate Hc|].
    now rewrite IH.
Qed.

Lemma splitlines_from_unlines (ls : list string) :
  forallb no_linebreak ls = true -> splitlines_from "" (unlines ls) = ls.
Proof.
  induction ls as [|l ls IH]; intros H; cbn [unlines].
  - reflexivity.
  - cbn in H. apply andb_prop in H. destruct H as [Hl Hls].
    rewrite splitlines_from_line by exact Hl.
    rewrite rev_string_rev_string, append_empty_r. cbn [rev_string].
    now rewrite IH.
Qed.

Lemma splitlines_eq (s : string) : splitlines s = splitlines_from "" s.
Proof. reflexivity. Qed.

(** X1. A text made of lines that hold no line boundary, each ended by a
    newline, splits back into exactly those lines: no line is added for
    the final newline and empty lines are kept. *)
Theorem splitlines_unlines (ls : list string) :
  forallb no_linebreak ls = true -> splitlines (unlines ls) = ls.
Proof.
  intros H. rewrite splitlines_eq. now apply splitlines_from_unlines.
Qed.

Lemma append_assoc (a b c : string) : (a ++ b) ++ c = a ++ b ++ c.
Proof. induction a as [|x a IH]; cbn; [reflexivity|now rewrite IH]. Qed.

Lemma endswith_sep_append_sep (d : string) : endswith_sep (d ++ "/") = true.
Proof.
  induction d as [|c d IH]; [reflexivity|].
  cbn [append]. cbn [endswith_sep].
  destruct (d ++ "/") eqn:E; [destruct d; discriminate E|exact IH].
Qed.

Lemma join_step_trailing_sep (d b : string) :
  d <> "" -> endswith_sep d = false -> startswith_sep b = false ->
  join_step (d ++ "/") b = join_step d b.
Proof.
  intros Hd Hend Hb. unfold join_step.
  rewrite Hb, Hend, endswith_sep_append_sep.
  rewrite orb_true_r.
  destruct (String.eqb_spec d ""); [contradiction|]. cbn [orb].
  now rewrite append_assoc.
Qed.

Lemma path_join_same_head (a a' b : string) (p : list string) :
  join_step a b = join_step a' b ->
  path_join a (b :: p) = path_join a' (b :: p).
Proof. intros H. unfold path_join. cbn [fold_left]. now rewrite H. Qed.

(** X2. [os.path.join] gives the same path whether or not a non-empty
    first component ends in a separator, when the next component is
    relative. *)
Theorem path_join_trailing_sep (d b : string) (p : list string) :
  d <> "" -> endswith_sep d = false -> startswith_sep b = false ->
  path_join (d ++ "/") (b :: p) = path_join d (b :: p).
Proof.
  intros Hd Hend Hb. apply path_join_same_head.
  exact (@join_step_trailing_sep d b Hd Hend Hb).
Qed.

Lemma join_step_plain (d b : string) :
  d <> "" -> endswith_sep d = false -> startswith_sep b = false ->
  join_step d b = d ++ "/" ++ b.
Proof.
  intros Hd Hend Hb. unfold join_step. rewrite Hb, Hend.
  destruct (String.eqb_spec d ""); [contradiction|]. reflexivity.
Qed.
End Lines_and_paths.

(** ** More on the loaders and the orchestrator *)


Section More_loads.
Context {L : Libraries} {S : Systematics L}.

#[local] Opaque path_join splitlines.

(** X3. A manager made on [d/] loads the train partition exactly as a
    manager made on [d] does: same outcome, same partition and
    ground-truth parameters, same files opened; only [input_dir]
    differs. *)
Theorem load_train_set_trailing_sep (d : string) (st : State) :
  d <> "" -> endswith_sep d = false ->
  load_train_set (with_input_dir (d ++ "/") st) =
  (fst (load_train_set (with_input_dir d st)),
   with_input_dir (d ++ "/") (snd (load_train_set (with_input_dir d st)))).
Proof.
  intros Hd Hend. destruct st as [s w].
  unfold load_train_set, with_input_dir. unfold_monad. cbn.
  pose proof (fun b p Hb =>
                @path_join_same_head (d ++ "/") d b p
                  (@join_step_trailing_sep d b Hd Hend Hb)) as Hjoin.
  repeat (try rewrite !Hjoin by reflexivity; case_scrutinee);
    reflexivity.
Qed.

(** X4. The same for [load_test_set]. *)
Theorem load_test_set_trailing_sep (d : string) (st : State) :
  d <> "" -> endswith_sep d = false ->
  load_test_set (with_input_dir (d ++ "/") st) =
  (fst (load_test_set (with_input_dir d st)),
   with_input_dir (d ++ "/") (snd (load_test_set (with_input_dir d st)))).
Proof.
  intros Hd Hend. destruct st as [s w].
  unfold load_test_set, with_input_dir. unfold_monad. cbn.
  unfold_monad. cbn.
  pose proof (fun b p Hb =>
                @path_join_same_head (d ++ "/") d b p
                  (@join_step_trailing_sep d b Hd Hend Hb)) as Hjoin.
  repeat (try rewrite !Hjoin by reflexivity; case_scrutinee);
    reflexivity.
Qed.

(** X5. [load_train_set] does not look at what the manager holds: with
    any other train attribute (unbound after a delete, [None], an older
    partition) and any other cached ground-truth parameters it has the
    same outcome and opens the same files, and when it returns the manager
    is the same. Nothing of an older partition survives a reload. *)
Theorem load_train_set_replaces
  (a : attr (option TrainSet)) (g : attr pyjson) (st : State) :
  outcome (load_train_set (with_train_state a g st)) =
  outcome (load_train_set st) /\
  log_after (load_train_set (with_train_state a g st)) =
  log_after (load_train_set st) /\
  (outcome (load_train_set st) = Ok tt ->
   self_after (load_train_set (with_train_state a g st)) =
   self_after (load_train_set st)).
Proof.
  destruct st as [s w].
  unfold load_train_set, with_train_state, outcome, log_after, self_after.
  unfold_monad. cbn.
  repeat case_scrutinee; repeat split; try discriminate; reflexivity.
Qed.




(** X9. Whether it returns or raises, [load_test_set] leaves the train
    partition, the cached ground-truth parameters, [input_dir], the files
    and the ambient state as they were. *)
Theorem load_test_set_frame (st : State) :
  let r := load_test_set st in
  Data__train_set (self_after r) = Data__train_set (self st) /\
  ground_truth_mus (self_after r) = ground_truth_mus (self st) /\
  input_dir (self_after r) = input_dir (self st) /\
  fs (world (snd r)) = fs (world st) /\
  ambient (world (snd r)) = ambient (world st).
Proof.
  cbn zeta. pose proof (load_test_set_run st) as H. cbn zeta in H.
  destruct (first_unreadable (world st) (input_dir (self st))).
  - destruct H as (new & -> & _). repeat split.
  - destruct H as (ts & -> & _). repeat split.
Qed.

(** X10. After a [load_test_set] that returns, [get_test_set] gives the
    dict with the four keys in the order ztautau, diboson, ttbar, htautau,
    each bound to the table its own file decodes to. *)
Theorem load_test_set_installs_decoded_files (st : State) :
  outcome (load_test_set st) = Ok tt ->
  exists z d t h,
    let file key :=
      decoded (world st) parquet_decode
        (category_file (input_dir (self st)) key) in
    file "ztautau" = Some z /\ file "diboson" = Some d /\
    file "ttbar" = Some t /\ file "htautau" = Some h /\
    outcome (get_test_set (snd (load_test_set st))) =
    Ok (Some [("ztautau", z); ("diboson", d); ("ttbar", t); ("htautau", h)]).
Proof.
  destruct st as [s w].
  unfold load_test_set, get_test_set, outcome, decoded, category_file.
  unfold_monad. cbn. unfold_monad. cbn.
  repeat case_scrutinee; intros H; try discriminate H.
  do 4 eexists. repeat split.
Qed.

(** X11. Whatever the collaborator does, [generate_psuedo_exp_data]
    leaves the train partition, the cached ground-truth parameters and
    [input_dir] as they were, opens no file and prints nothing: all it
    adds to the log are its calls. *)
Theorem generate_frame (mu tes jes sm tb di bk seed : pyarg) (st : State) :
  let r := generate_psuedo_exp_data mu tes jes sm tb di bk seed st in
  Data__train_set (self_after r) = Data__train_set (self st) /\
  ground_truth_mus (self_after r) = ground_truth_mus (self st) /\
  input_dir (self_after r) = input_dir (self st) /\
  fs (world (snd r)) = fs (world st) /\
  opens (log_after r) = opens (log (world st)) /\
  filter (fun e => negb (is_call e)) (log_after r) =
  filter (fun e => negb (is_call e)) (log (world st)).
Proof.
  cbn zeta. rewrite generate_psuedo_exp_data_run.
  destruct (get_bootstraped_dataset _ _ _ _ _ _ _) as [[[o|e] ts'] a'];
    cbn; repeat split.
Qed.

(** X12. [generate_psuedo_exp_data] hands [set_mu], the three scales and
    the seed to the bootstrap step together with the stored test
    partition. When that step raises, the exception is passed on and the
    systematics step is not called; when it returns, the systematics step
    is called on its result with [tes], [jes], [soft_met], and its outcome
    is the outcome of the call. *)
Theorem generate_propagates (mu tes jes sm tb di bk seed : pyarg) (st : State) :
  let r := generate_psuedo_exp_data mu tes jes sm tb di bk seed st in
  let boot :=
    fst (fst (get_bootstraped_dataset (ambient (world st))
                (Data__test_set (self st)) mu tb di bk seed)) in
  match boot with
  | Raise e =>
      outcome r = Raise e /\
      calls (log_after r) =
      Call_get_bootstraped_dataset (Data__test_set (self st)) mu tb di bk seed
        :: calls (log (world st))
  | Ok o =>
      outcome r = fst (get_systematics_dataset o tes jes sm) /\
      calls (log_after r) =
      Call_get_systematics_dataset o tes jes sm
        :: Call_get_bootstraped_dataset (Data__test_set (self st))
             mu tb di bk seed
        :: calls (log (world st))
  end.
Proof.
  cbn zeta. rewrite generate_psuedo_exp_data_run.
  destruct (get_bootstraped_dataset _ _ _ _ _ _ _) as [[[o|e] ts'] a'];
    cbn; repeat split.
Qed.

(** X13. When the implicit load of [get_syst_train_set] reads the five
    train files and then fails on [test/settings/data.json], the call
    raises without calling [systematics], but the partition is installed:
    a second call opens no file and delegates at once, with the cached
    ground-truth parameters still what they were before the first call. *)
Theorem get_syst_train_set_retry
  (st : State) (ts : TrainSet) (e : exn) (tes jes sm tb di bk : pyarg) :
  Data__train_set (self st) = Bound None ->
  train_files (world st) (input_dir (self st)) = Some ts ->
  ground_truth_file (world st) (input_dir (self st)) = Raise e ->
  let first := get_syst_train_set tes jes sm tb di bk st in
  let second := get_syst_train_set tes jes sm tb di bk (snd first) in
  outcome first = Raise e /\
  calls (log_after first) = calls (log (world st)) /\
  Data__train_set (self_after first) = Bound (Some ts) /\
  outcome second = fst (systematics (Some ts) tes jes sm tb di bk) /\
  log_after second =
  Call_systematics (Some ts) tes jes sm tb di bk :: log_after first /\
  ground_truth_mus (self_after second) = ground_truth_mus (self st).
Proof.
  intros Hnone Hts He. cbn zeta.
  pose proof (load_train_set_run st) as H. cbn zeta in H.
  rewrite Hts, He in H.
  rewrite (get_syst_train_set_run tes jes sm tb di bk st), Hnone, H.
  cbn [snd]. rewrite get_syst_train_set_run, call_systematics_run.
  cbn. repeat split.
Qed.

(** X14. When a train file cannot be read, [get_syst_train_set] on a
    manager holding [None] raises, does not call [systematics], and leaves
    the manager as it was, so that the next call tries the load again. *)
Theorem get_syst_train_set_unreadable
  (st : State) (tes jes sm tb di bk : pyarg) :
  Data__train_set (self st) = Bound None ->
  train_files (world st) (input_dir (self st)) = None ->
  let r := get_syst_train_set tes jes sm tb di bk st in
  (exists e, outcome r = Raise e) /\
  self_after r = self st /\
  calls (log_after r) = calls (log (world st)).
Proof.
  intros Hnone Hts. cbn zeta.
  pose proof (load_train_set_run st) as H. cbn zeta in H.
  rewrite Hts in H. destruct H as (e & paths & H).
  rewrite get_syst_train_set_run, Hnone, H. cbn.
  split; [eauto|]. split; [reflexivity|].
  unfold calls. rewrite filter_app.
  replace (filter is_call (map Open paths ++ [Print "[*] Loading Train data"]))
    with (@nil event); [reflexivity|].
  rewrite filter_app. cbn. rewrite app_nil_r. clear H.
  induction paths as [|p paths IH]; [reflexivity|exact IH].
Qed.

(** X15. When the detailed-labels file holds one label per line, each
    ended by a newline, the partition a returning [load_train_set]
    installs has exactly those labels, in order. *)
Theorem load_train_set_detailed_labels (st : State) (ls : list string) :
  fs (world st) (train_detailed_labels_file (input_dir (self st))) =
  Some (unlines ls) ->
  forallb no_linebreak ls = true ->
  outcome (load_train_set st) = Ok tt ->
  exists ts,
    Data__train_set (self_after (load_train_set st)) = Bound (Some ts) /\
    detailed_labels ts = ls.
Proof.
  intros Hfile Hls Hok.
  pose proof (load_train_set_run st) as H. cbn zeta in H.
  destruct (train_files (world st) (input_dir (self st))) as [ts|] eqn:Hts.
  - exists ts. split.
    + destruct (ground_truth_file (world st) (input_dir (self st)));
        rewrite H; reflexivity.
    + unfold train_files, decoded in Hts. rewrite Hfile in Hts.
      repeat match type of Hts with
             | match ?x with _ => _ end = _ =>
                 destruct x; try discriminate Hts
             end.
      injection Hts as <-. cbn.
      rewrite splitlines_eq. apply splitlines_from_unlines, Hls.
  - destruct H as (e & paths & H). rewrite H in Hok. discriminate Hok.
Qed.
(** X16. On a manager holding [None] and a directory that loads,
    [get_syst_train_set] loads once: it opens the six files, in order, then
    calls [systematics] on the partition just installed with its six
    parameters. A second call, the partition being still stored, opens no
    file. *)
Theorem get_syst_train_set_loads_then_reuses
  (st : State) (ts ts' : TrainSet) (v : pyjson)
  (tes jes sm tb di bk : pyarg) :
  Data__train_set (self st) = Bound None ->
  train_files (world st) (input_dir (self st)) = Some ts ->
  ground_truth_file (world st) (input_dir (self st)) = Ok v ->
  snd (systematics (Some ts) tes jes sm tb di bk) = Some ts' ->
  let first := get_syst_train_set tes jes sm tb di bk st in
  let second := get_syst_train_set tes jes sm tb di bk (snd first) in
  outcome first = fst (systematics (Some ts) tes jes sm tb di bk) /\
  opens (log_after first) =
  (rev (map Open (train_reads (input_dir (self st)))) ++
   opens (log (world st)))%list /\
  calls (log_after first) =
  Call_systematics (Some ts) tes jes sm tb di bk :: calls (log (world st)) /\
  Data__train_set (self_after first) = Bound (Some ts') /\
  ground_truth_mus (self_after first) = Bound v /\
  outcome second = fst (systematics (Some ts') tes jes sm tb di bk) /\
  opens (log_after second) = opens (log_after first).
Proof.
  intros Hnone Hts Hv Hkeep. cbn zeta.
  pose proof (load_train_set_run st) as H. cbn zeta in H.
  rewrite Hts, Hv in H.
  rewrite (get_syst_train_set_run tes jes sm tb di bk st), Hnone, H.
  rewrite call_systematics_run.
  cbn [snd fst self world extend_log Data__train_set set_train_set
       set_ground_truth_mus].
  rewrite get_syst_train_set_run.
  cbn [snd fst self world extend_log Data__train_set set_train_set
       set_ground_truth_mus].
  rewrite Hkeep, call_systematics_run.
  cbn [snd fst self world extend_log Data__train_set set_train_set
       set_ground_truth_mus].
  unfold outcome, self_after, log_after.
  cbn [snd fst self world extend_log Data__train_set set_train_set
       set_ground_truth_mus ground_truth_mus log].
  repeat split.
Qed.
End More_loads.

(** ** The download helper *)

Unset Implicit Arguments.

Section Provisioning.
Import Provisioner.
#[local] Open Scope list_scope.

Lemma path_eqb_refl (p : Path) : path_eqb p p = true.
Proof.
  induction p as [|a p IH]; [reflexivity|].
  cbn. now rewrite String.eqb_refl.
Qed.

Lemma path_eqb_eq (p q : Path) : path_eqb p q = true -> p = q.
Proof.
  revert q. induction p as [|a p IH]; intros [|b q] H; try discriminate H.
  - reflexivity.
  - cbn in H. apply andb_prop in H. destruct H as [Hab Hpq].
    apply String.eqb_eq in Hab. subst b. now rewrite (IH q Hpq).
Qed.

Lemma path_eqb_snoc (p : Path) (x : string) :
  path_eqb (p ++ [x]) p = false /\ path_eqb p (p ++ [x]) = false.
Proof.
  induction p as [|a p [IH1 IH2]]; [split; reflexivity|].
  cbn. now rewrite String.eqb_refl, IH1, IH2.
Qed.

Lemma path_eqb_siblings (p : Path) (x y : string) :
  String.eqb x y = false -> path_eqb (p ++ [x]) (p ++ [y]) = false.
Proof.
  intros H. induction p as [|a p IH]; cbn.
  - now rewrite H.
  - now rewrite String.eqb_refl, IH.
Qed.

Lemma node_at_snoc (d : Disk) (p : Path) (x : string) :
  node_at d (p ++ [x]) = d (p ++ [x])%list.
Proof. destruct p; reflexivity. Qed.

Lemma parent_snoc (p : Path) (x : string) : parent (p ++ [x]) = p.
Proof. apply removelast_last. Qed.

Lemma put_same (p : Path) (n : node) (d : Disk) : put p n d p = Some n.
Proof. unfold put. now rewrite path_eqb_refl. Qed.

Lemma put_other (p q : Path) (n : node) (d : Disk) :
  path_eqb q p = false -> put p n d q = d q.
Proof. unfold put. now intros ->. Qed.

Context {L : Libraries} {Zp : ZipFile}.

#[local] Arguments node_at : simpl never.
#[local] Arguments parent : simpl never.
#[local] Opaque url.

Ltac unfold_prov :=
  unfold Neurips2024_public_dataset, unless_exists, extract, download, mkdir,
    open_wb, check_parent, path_exists, note, set_disk, get_host, pbind,
    pret, fail in *.

Lemma unless_exists_run (p : Path) (body : P unit) (h : Host) :
  unless_exists p body h = if present h p then (Done tt, h) else body h.
Proof.
  unfold unless_exists, path_exists, present, pbind, get_host, pret. cbn.
  destruct (node_at (disk h) p); reflexivity.
Qed.

(** The helper, stage by stage. *)
Lemma Neurips2024_public_dataset_run (h : Host) :
  Neurips2024_public_dataset h =
  match unless_exists (public_data h) (mkdir (public_data h)) h with
  | (Failed e, h1) => (Failed e, h1)
  | (Done _, h1) =>
      match unless_exists (archive_file h) (download (archive_file h)) h1 with
      | (Failed e, h2) => (Failed e, h2)
      | (Done _, h2) =>
          match unless_exists (input_data h)
                  (extract (archive_file h) (public_data h)) h2 with
          | (Failed e, h3) => (Failed e, h3)
          | (Done _, h3) => (Done (manager h), h3)
          end
      end
  end.
Proof.
  unfold Neurips2024_public_dataset, pbind, get_host, pret.
  fold (public_data h). fold (archive_file h). fold (input_data h).
  destruct (unless_exists (public_data h) _ h) as [[[]|e] h1]; [|reflexivity].
  destruct (unless_exists (archive_file h) _ h1) as [[[]|e] h2]; [|reflexivity].
  destruct (unless_exists (input_data h) _ h2) as [[[]|e] h3]; reflexivity.
Qed.

(** With the three paths in place no stage does anything. *)
Lemma provisioned_run (h : Host) :
  present h (public_data h) = true ->
  present h (archive_file h) = true ->
  present h (input_data h) = true ->
  Neurips2024_public_dataset h = (Done (manager h), h).
Proof.
  intros H1 H2 H3. rewrite Neurips2024_public_dataset_run.
  rewrite unless_exists_run, H1. cbv beta iota.
  rewrite unless_exists_run, H2. cbv beta iota.
  now rewrite unless_exists_run, H3.
Qed.

Lemma present_put (p q : Path) (n : node) (h : Host) :
  match node_at (put p n (disk h)) q with Some _ => true | None => false end =
  (path_eqb q p || present h q)%bool.
Proof.
  unfold present, put. destruct q as [|a q]; [now rewrite orb_true_r|].
  unfold node_at. destruct (path_eqb (a :: q) p); reflexivity.
Qed.

Lemma grows_refl (h : Host) : grows h h.
Proof. repeat split; auto. Qed.

Lemma grows_trans (h1 h2 h3 : Host) : grows h1 h2 -> grows h2 h3 -> grows h1 h3.
Proof.
  intros (Hc & Hn & Hp) (Hc' & Hn' & Hp'). repeat split.
  - now rewrite Hc'.
  - now rewrite Hn'.
  - auto.
Qed.

Lemma grows_put (p : Path) (n : node) (h : Host) (j : list action) :
  grows h {| disk := put p n (disk h); cwd := cwd h; net := net h;
             journal := j |}.
Proof.
  repeat split. intros q Hq. unfold present. cbn [disk].
  rewrite present_put, Hq. apply orb_true_r.
Qed.

Lemma mkdir_post (p : Path) (h h' : Host) :
  mkdir p h = (Done tt, h') ->
  grows h h' /\ present h' p = true /\ journal h' = journal h.
Proof.
  unfold mkdir, check_parent, set_disk, get_host, pbind, pret, fail. cbn.
  destruct (node_at (disk h) (parent p)) as [[|c]|]; cbn; intros H;
    try discriminate H.
  injection H as <-. split; [apply grows_put|]. split; [|reflexivity].
  unfold present. cbn [disk]. rewrite present_put, path_eqb_refl. reflexivity.
Qed.

Lemma write_all_post (p : Path) (chunks : list string) (h : Host) (c : string) :
  disk h p = Some (File c) ->
  exists h',
    write_all p chunks h = (Done tt, h') /\
    disk h' p = Some (File (c ++ concat_all chunks)%string) /\
    (forall q, path_eqb q p = false -> disk h' q = disk h q) /\
    cwd h' = cwd h /\ net h' = net h /\ journal h' = journal h.
Proof.
  revert h c. induction chunks as [|chunk chunks IH]; intros h c Hp.
  - exists h. cbn. rewrite Hp, append_empty_r. repeat split; auto.
  - cbn [write_all]. unfold pbind at 1. unfold write, pbind, get_host, set_disk.
    cbn. rewrite Hp. cbn.
    destruct (IH {| disk := put p (File (c ++ chunk)%string) (disk h);
                    cwd := cwd h; net := net h; journal := journal h |}
                 (c ++ chunk)%string) as (h' & Hrun & Hfile & Hother & Hrest).
    { cbn. apply put_same. }
    exists h'. split; [exact Hrun|]. split.
    + now rewrite Hfile, append_assoc.
    + split; [|exact Hrest].
      intros q Hq. rewrite (Hother q Hq). cbn. apply put_other, Hq.
Qed.

Lemma present_from_disk (h h' : Host) (q : Path) :
  disk h' q = disk h q -> present h' q = present h q.
Proof. unfold present, node_at. destruct q; [reflexivity|]. now intros ->. Qed.

Lemma open_wb_run (f : Path) (h : Host) :
  node_at (disk h) (parent f) = Some Dir ->
  (forall n, node_at (disk h) f = Some n -> exists c, n = File c) ->
  open_wb f h =
  (Done tt,
   {| disk := put f (File "") (disk h); cwd := cwd h; net := net h;
      journal := journal h |}).
Proof.
  intros Hparent Hfile.
  unfold open_wb, check_parent, set_disk, get_host, pbind, pret, fail. cbn.
  rewrite Hparent. cbn.
  destruct (node_at (disk h) f) as [[|c]|] eqn:E; try reflexivity.
  destruct (Hfile Dir eq_refl) as [c Hc]. discriminate Hc.
Qed.

(** A download that gets past the status check. *)
Lemma download_run
  (f : Path) (h : Host) (status : Z) (chunks : list string) (complete : bool) :
  net h url = Reply status chunks complete ->
  error_status status = false ->
  node_at (disk h) (parent f) = Some Dir ->
  (forall n, node_at (disk h) f = Some n -> exists c, n = File c) ->
  exists h',
    download f h =
    (if complete then Done tt else Failed ChunkedEncodingError, h') /\
    disk h' f = Some (File (concat_all chunks)) /\
    (forall q, path_eqb q f = false -> disk h' q = disk h q) /\
    cwd h' = cwd h /\ net h' = net h /\
    journal h' = Requested url :: journal h.
Proof.
  intros Hnet Hstatus Hparent Hfile.
  unfold download. unfold pbind at 1. unfold note. unfold pbind at 1.
  unfold get_host at 1. cbn [net]. rewrite Hnet.
  unfold error_status in Hstatus. rewrite Hstatus.
  unfold pbind at 1. rewrite open_wb_run by assumption.
  destruct (write_all_post f chunks
              {| disk := put f (File "") (disk h); cwd := cwd h;
                 net := net h; journal := Requested url :: journal h |} "")
    as (h' & Hrun & Hcontent & Hother & Hcwd & Hn & Hj).
  { cbn. apply put_same. }
  exists h'. unfold pbind. cbn in Hrun. cbn. rewrite Hrun.
  split; [destruct complete; reflexivity|].
  split; [exact Hcontent|]. split; [|auto].
  intros q Hq. rewrite (Hother q Hq). cbn. apply put_other, Hq.
Qed.

Lemma download_post (f : Path) (h h' : Host) :
  download f h = (Done tt, h') -> grows h h' /\ present h' f = true.
Proof.
  unfold download. unfold pbind at 1. unfold note. unfold pbind at 1.
  unfold get_host at 1. cbn [net].
  destruct (net h url) as [|status chunks complete] eqn:Hnet;
    [intros H; discriminate H|].
  destruct ((400 <=? status)%Z && (status <? 600)%Z) eqn:Hstatus;
    [intros H; discriminate H|].
  unfold pbind at 1.
  unfold open_wb, check_parent, set_disk, get_host, pbind, pret, fail. cbn.
  destruct (node_at (disk h) (parent f)) as [[|c]|]; cbn;
    try (intros H; discriminate H).
  destruct (node_at (disk h) f) as [[|c]|] eqn:Hf; cbn;
    try (intros H; discriminate H).
  all: destruct (write_all_post f chunks
              {| disk := put f (File "") (disk h); cwd := cwd h;
                 net := net h; journal := Requested url :: journal h |} "")
    as (h1 & Hrun & Hcontent & Hother & Hcwd & Hn & Hj);
    [cbn; apply put_same|];
    cbn in Hrun; rewrite Hrun;
    destruct complete; intros H; try discriminate H;
    injection H as <-;
    (split;
     [ repeat split; [exact Hcwd|exact Hn|];
       intros q Hq;
       destruct (path_eqb q f) eqn:Hqf;
       [ apply path_eqb_eq in Hqf; subst q; unfold present, node_at;
         destruct f; [reflexivity|now rewrite Hcontent]
       | rewrite (present_from_disk h h1 q);
         [exact Hq|rewrite (Hother q Hqf); cbn; apply put_other, Hqf] ]
     | unfold present, node_at; destruct f;
       [reflexivity|now rewrite Hcontent] ]).
Qed.

Lemma extract_post (f dest : Path) (h h' : Host) :
  extractall_keeps ->
  extract f dest h = (Done tt, h') -> grows h h'.
Proof.
  intros Hkeeps.
  unfold extract, note, set_disk, get_host, pbind, pret, fail. cbn.
  destruct (node_at (disk h) f) as [[|bytes]|]; try (intros H; discriminate H).
  destruct (zip_read bytes) as [archive|]; [|intros H; discriminate H].
  cbn. specialize (Hkeeps archive dest (disk h)).
  destruct (extractall archive dest (disk h)) as [[[]|e] d]; cbn;
    intros H; try discriminate H.
  injection H as <-. repeat split. intros p Hp. unfold present in *. cbn in *.
  specialize (Hkeeps p). destruct (node_at (disk h) p); [|discriminate Hp].
  destruct (node_at d p); [reflexivity|]. now elim Hkeeps.
Qed.

Lemma unless_exists_post (p : Path) (body : P unit) (h h' : Host) :
  (forall h', body h = (Done tt, h') -> grows h h' /\ present h' p = true) ->
  unless_exists p body h = (Done tt, h') ->
  grows h h' /\ present h' p = true.
Proof.
  intros Hbody. rewrite unless_exists_run.
  destruct (present h p) eqn:Hp.
  - intros H. injection H as <-. split; [apply grows_refl|exact Hp].
  - apply Hbody.
Qed.

Lemma mkdir_run (p : Path) (h : Host) :
  node_at (disk h) (parent p) = Some Dir ->
  mkdir p h =
  (Done tt,
   {| disk := put p Dir (disk h); cwd := cwd h; net := net h;
      journal := journal h |}).
Proof.
  intros Hparent.
  unfold mkdir, check_parent, set_disk, get_host, pbind, pret, fail. cbn.
  now rewrite Hparent.
Qed.

(** X17. With [public_data], the archive and [input_data] in place the
    helper requests nothing, extracts nothing and writes nothing, and
    returns what the constructor gives on [cwd/public_data/input_data]. *)
Theorem provisioned_directory_is_left_alone
  {S : Systematics L} (h : Host) :
  present h (public_data h) = true ->
  present h (archive_file h) = true ->
  present h (input_data h) = true ->
  let r := Neurips2024_public_dataset h in
  snd r = h /\
  exists d,
    fst r = Done d /\
    forall w : World,
      Data_init (path_str (cwd h ++ ["public_data"; "input_data"])) w =
      (Ok d, w).
Proof.
  intros H1 H2 H3. cbn zeta. rewrite provisioned_run by assumption.
  split; [reflexivity|]. exists (manager h). split; reflexivity.
Qed.

(** X18. When the archive file is already there, the helper makes no
    request, whatever else it does. *)
Theorem cached_archive_means_no_request (h : Host) :
  present h (public_data h) = true ->
  present h (archive_file h) = true ->
  requests (journal (snd (Neurips2024_public_dataset h))) =
  requests (journal h).
Proof.
  intros Hpd Hzip. rewrite Neurips2024_public_dataset_run.
  rewrite unless_exists_run, Hpd. cbv beta iota.
  rewrite unless_exists_run, Hzip. cbv beta iota.
  rewrite unless_exists_run.
  destruct (present h (input_data h)); [reflexivity|].
  unfold extract, note, set_disk, get_host, pbind, pret, fail. cbn.
  destruct (node_at (disk h) (archive_file h)) as [[|bytes]|]; try reflexivity.
  destruct (zip_read bytes) as [archive|]; [|reflexivity].
  cbn. destruct (extractall _ _ _) as [[[]|e] d]; reflexivity.
Qed.


(** The first stage, when the working directory is a directory and
    [public_data] is not a regular file. *)
Lemma ensure_public_data (h : Host) :
  node_at (disk h) (cwd h) = Some Dir ->
  (forall c, node_at (disk h) (public_data h) <> Some (File c)) ->
  exists h1,
    unless_exists (public_data h) (mkdir (public_data h)) h = (Done tt, h1) /\
    node_at (disk h1) (public_data h) = Some Dir /\
    cwd h1 = cwd h /\ net h1 = net h /\ journal h1 = journal h /\
    forall q, path_eqb q (public_data h) = false -> disk h1 q = disk h q.
Proof.
  intros Hcwd Hpd. rewrite unless_exists_run. unfold present.
  destruct (node_at (disk h) (public_data h)) as [[|c]|] eqn:E.
  - exists h. repeat split; auto.
  - now elim (Hpd c).
  - rewrite mkdir_run
      by (unfold public_data; rewrite parent_snoc; exact Hcwd).
    eexists. split; [reflexivity|]. cbn.
    split; [unfold public_data; rewrite node_at_snoc; apply put_same|].
    repeat split. intros q Hq. apply put_other, Hq.
Qed.

Lemma broken_download_host
  (h : Host) (status : Z) (chunks : list string) :
  node_at (disk h) (cwd h) = Some Dir ->
  (forall c, node_at (disk h) (public_data h) <> Some (File c)) ->
  present h (archive_file h) = false ->
  net h url = Reply status chunks false ->
  error_status status = false ->
  exists h2,
    Neurips2024_public_dataset h = (Failed ChunkedEncodingError, h2) /\
    disk h2 (archive_file h) = Some (File (concat_all chunks)) /\
    node_at (disk h2) (public_data h) = Some Dir /\
    cwd h2 = cwd h /\
    journal h2 = Requested url :: journal h /\
    forall q,
      path_eqb q (archive_file h) = false ->
      path_eqb q (public_data h) = false ->
      disk h2 q = disk h q.
Proof.
  intros Hcwd Hpd Hzip Hnet Hstatus.
  destruct (ensure_public_data h Hcwd Hpd)
    as (h1 & Hrun1 & Hdir & Hcwd1 & Hnet1 & Hj1 & Hother1).
  assert (Hzip1 : node_at (disk h1) (archive_file h) = None).
  { unfold archive_file in *. rewrite node_at_snoc.
    rewrite Hother1 by apply path_eqb_snoc.
    unfold present in Hzip. rewrite node_at_snoc in Hzip.
    destruct (disk h (public_data h ++ ["public_data.zip"]));
      [discriminate Hzip|reflexivity]. }
  destruct (download_run (archive_file h) h1 status chunks false)
    as (h2 & Hrun2 & Hcontent & Hother2 & Hcwd2 & Hnet2 & Hj2).
  { now rewrite Hnet1. }
  { exact Hstatus. }
  { unfold archive_file. now rewrite parent_snoc. }
  { intros n Hn. rewrite Hzip1 in Hn. discriminate Hn. }
  exists h2. rewrite Neurips2024_public_dataset_run, Hrun1. cbv beta iota.
  rewrite unless_exists_run.
  unfold present. rewrite Hzip1, Hrun2.
  split; [reflexivity|]. split; [exact Hcontent|]. split.
  { unfold public_data in *. rewrite node_at_snoc in *.
    rewrite Hother2; [exact Hdir|]. apply path_eqb_snoc. }
  split; [now rewrite Hcwd2|]. split; [now rewrite Hj2, Hj1|].
  intros q Hq1 Hq2. now rewrite Hother2, Hother1.
Qed.

(** X20. When the stream breaks after some chunks, the helper raises
    and the archive file stays on the disk with the chunks received. *)
Theorem broken_download_leaves_partial_archive
  (h : Host) (status : Z) (chunks : list string) :
  node_at (disk h) (cwd h) = Some Dir ->
  (forall c, node_at (disk h) (public_data h) <> Some (File c)) ->
  present h (archive_file h) = false ->
  net h url = Reply status chunks false ->
  error_status status = false ->
  let r := Neurips2024_public_dataset h in
  fst r = Failed ChunkedEncodingError /\
  disk (snd r) (archive_file h) = Some (File (concat_all chunks)) /\
  journal (snd r) = Requested url :: journal h.
Proof.
  intros Hcwd Hpd Hzip Hnet Hstatus. cbn zeta.
  destruct (broken_download_host h status chunks Hcwd Hpd Hzip Hnet Hstatus)
    as (h2 & -> & Hcontent & _ & _ & Hj & _).
  now repeat split.
Qed.

Lemma stale_archive_host (h : Host) (bytes : string) :
  present h (public_data h) = true ->
  disk h (archive_file h) = Some (File bytes) ->
  zip_read bytes = None ->
  present h (input_data h) = false ->
  Neurips2024_public_dataset h = (Failed BadZipFile, h).
Proof.
  intros Hpd Hzip Hbad Hin.
  assert (Hnode : node_at (disk h) (archive_file h) = Some (File bytes)).
  { unfold archive_file in *. now rewrite node_at_snoc. }
  rewrite Neurips2024_public_dataset_run.
  rewrite unless_exists_run, Hpd. cbv beta iota.
  rewrite unless_exists_run. unfold present at 1. rewrite Hnode.
  cbv beta iota. rewrite unless_exists_run, Hin.
  unfold extract, get_host, pbind, fail. cbn. now rewrite Hnode, Hbad.
Qed.

(** X21. With an archive file that is no zip file and no [input_data],
    every call fails with [BadZipFile] and changes nothing, whatever the
    network would deliver: the file is never downloaded again. *)
Theorem unreadable_archive_is_never_replaced (h : Host) (bytes : string) :
  present h (public_data h) = true ->
  disk h (archive_file h) = Some (File bytes) ->
  zip_read bytes = None ->
  present h (input_data h) = false ->
  forall n,
    Neurips2024_public_dataset (with_net n h) =
    (Failed BadZipFile, with_net n h).
Proof.
  intros Hpd Hzip Hbad Hin n.
  apply (stale_archive_host (with_net n h) bytes); assumption.
Qed.

(** X22. After a download that broke, with what was received being no
    zip file, every later call fails with [BadZipFile] without making a
    request, also once the network works again. *)
Theorem broken_download_poisons_the_cache
  (h : Host) (status : Z) (chunks : list string) :
  node_at (disk h) (cwd h) = Some Dir ->
  (forall c, node_at (disk h) (public_data h) <> Some (File c)) ->
  present h (archive_file h) = false ->
  present h (input_data h) = false ->
  net h url = Reply status chunks false ->
  error_status status = false ->
  zip_read (concat_all chunks) = None ->
  let after := snd (Neurips2024_public_dataset h) in
  forall n,
    Neurips2024_public_dataset (with_net n after) =
    (Failed BadZipFile, with_net n after).
Proof.
  intros Hcwd Hpd Hzip Hin Hnet Hstatus Hbad. cbn zeta.
  destruct (broken_download_host h status chunks Hcwd Hpd Hzip Hnet Hstatus)
    as (h2 & -> & Hcontent & Hdir & Hcwd2 & _ & Hother).
  cbn [snd]. intros n.
  assert (Hpaths : public_data (with_net n h2) = public_data h).
  { unfold public_data. cbn. now rewrite Hcwd2. }
  apply (stale_archive_host (with_net n h2) (concat_all chunks)).
  - rewrite Hpaths. unfold present. cbn. now rewrite Hdir.
  - unfold archive_file. rewrite Hpaths. exact Hcontent.
  - exact Hbad.
  - unfold input_data. rewrite Hpaths. fold (input_data h).
    rewrite (present_from_disk h (with_net n h2) (input_data h));
      [exact Hin|].
    cbn. apply Hother.
    + unfold archive_file, input_data. now apply path_eqb_siblings.
    + apply path_eqb_snoc.
Qed.

(** X23. When [extractall] removes nothing, a call that returns with
    [input_data] on the disk makes the helper idempotent: the next call
    returns the same manager and leaves the machine as it is. *)
Theorem second_call_is_noop (h : Host) (d : Data) :
  extractall_keeps ->
  fst (Neurips2024_public_dataset h) = Done d ->
  present (snd (Neurips2024_public_dataset h)) (input_data h) = true ->
  Neurips2024_public_dataset (snd (Neurips2024_public_dataset h)) =
  (Done d, snd (Neurips2024_public_dataset h)).
Proof.
  intros Hkeeps. rewrite (Neurips2024_public_dataset_run h).
  destruct (unless_exists (public_data h) _ h) as [[[]|e] h1] eqn:H1;
    [|intros H; discriminate H].
  destruct (unless_exists (archive_file h) _ h1) as [[[]|e] h2] eqn:H2;
    [|intros H; discriminate H].
  destruct (unless_exists (input_data h) _ h2) as [[[]|e] h3] eqn:H3;
    [|intros H; discriminate H].
  cbn [fst snd]. intros Hd Hin. injection Hd as <-.
  apply unless_exists_post in H1;
    [|intros h' Hm; apply mkdir_post in Hm; tauto].
  apply unless_exists_post in H2; [|apply download_post].
  assert (G3 : grows h2 h3).
  { rewrite unless_exists_run in H3.
    destruct (present h2 (input_data h)).
    - injection H3 as <-. apply grows_refl.
    - apply (extract_post _ _ _ _ Hkeeps H3). }
  destruct H1 as [G1 P1]. destruct H2 as [G2 P2].
  pose proof (grows_trans _ _ _ G1 (grows_trans _ _ _ G2 G3)) as G.
  assert (Hcwd : cwd h3 = cwd h) by apply G.
  assert (Hpd : public_data h3 = public_data h)
    by (unfold public_data; now rewrite Hcwd).
  replace (manager h) with (manager h3)
    by (unfold manager; now rewrite Hcwd).
  apply provisioned_run.
  - rewrite Hpd. apply G3, G2, P1.
  - unfold archive_file. rewrite Hpd. apply G3, P2.
  - unfold input_data. rewrite Hpd. exact Hin.
Qed.

(** X24. When [public_data] is a regular file, the helper makes the
    request and only then fails, with [NotADirectoryError] on the archive
    path, the disk being as it was. *)
Theorem public_data_as_file_wastes_the_download
  (h : Host) (c : string) (status : Z) (chunks : list string)
  (complete : bool) :
  node_at (disk h) (public_data h) = Some (File c) ->
  present h (archive_file h) = false ->
  net h url = Reply status chunks complete ->
  error_status status = false ->
  Neurips2024_public_dataset h =
  (Failed (NotADirectoryError (archive_file h)),
   {| disk := disk h; cwd := cwd h; net := net h;
      journal := Requested url :: journal h |}).
Proof.
  intros Hpd Hzip Hnet Hstatus.
  rewrite Neurips2024_public_dataset_run.
  rewrite unless_exists_run. unfold present at 1. rewrite Hpd.
  cbv beta iota. rewrite unless_exists_run, Hzip.
  unfold download, open_wb, check_parent, note, get_host, pbind, fail. cbn.
  rewrite Hnet. unfold error_status in Hstatus. rewrite Hstatus. cbn.
  unfold archive_file at 1. rewrite parent_snoc, Hpd. reflexivity.
Qed.
End Provisioning.

(** ** More concrete runs *)

Section More_concrete.
Import Toy.

#[local] Transparent path_join splitlines.

(** X1 on three lines, the second empty. *)
Lemma splitlines_unlines_witness :
  forallb no_linebreak ["1.0"; ""; "0.5"] = true /\
  splitlines (unlines ["1.0"; ""; "0.5"]) = ["1.0"; ""; "0.5"].
Proof.
  split; [reflexivity|].
  apply (@splitlines_unlines ["1.0"; ""; "0.5"]). reflexivity.
Defined.

(** X2 on [/input] and the path of the train table. *)
Lemma path_join_trailing_sep_witness :
  "/input" <> "" /\
  endswith_sep "/input" = false /\
  startswith_sep "train" = false /\
  path_join ("/input" ++ "/") ["train"; "data"; "data.parquet"] =
  path_join "/input" ["train"; "data"; "data.parquet"].
Proof.
  assert (H : "/input" <> "") by discriminate.
  split; [exact H|]. split; [reflexivity|]. split; [reflexivity|].
  exact (@path_join_trailing_sep "/input" "train" ["data"; "data.parquet"]
           H eq_refl eq_refl).
Defined.

(** X3 on the complete directory. *)
Lemma load_train_set_trailing_sep_witness :
  "/input" <> "" /\
  endswith_sep "/input" = false /\
  outcome (load_train_set (with_input_dir ("/input" ++ "/") (fresh complete)))
  = outcome (load_train_set (with_input_dir "/input" (fresh complete))).
Proof.
  assert (H : "/input" <> "") by discriminate.
  split; [exact H|]. split; [reflexivity|].
  rewrite (@load_train_set_trailing_sep libraries collaborator
             "/input" (fresh complete) H eq_refl).
  reflexivity.
Defined.

(** X4 on the complete directory. *)
Lemma load_test_set_trailing_sep_witness :
  "/input" <> "" /\
  endswith_sep "/input" = false /\
  outcome (load_test_set (with_input_dir ("/input" ++ "/") (fresh complete)))
  = outcome (load_test_set (with_input_dir "/input" (fresh complete))).
Proof.
  assert (H : "/input" <> "") by discriminate.
  split; [exact H|]. split; [reflexivity|].
  rewrite (@load_test_set_trailing_sep libraries collaborator
             "/input" (fresh complete) H eq_refl).
  reflexivity.
Defined.


(** X10 on the complete directory. *)
Lemma load_test_set_installs_decoded_files_witness :
  outcome (load_test_set (fresh complete)) = Ok tt /\
  exists z d t h,
    let file key :=
      decoded (world (fresh complete)) parquet_decode
        (category_file (input_dir (self (fresh complete))) key) in
    file "ztautau" = Some z /\ file "diboson" = Some d /\
    file "ttbar" = Some t /\ file "htautau" = Some h /\
    outcome (get_test_set (snd (load_test_set (fresh complete)))) =
    Ok (Some [("ztautau", z); ("diboson", d); ("ttbar", t); ("htautau", h)]).
Proof.
  assert (H : outcome (load_test_set (fresh complete)) = Ok tt)
    by (vm_compute; reflexivity).
  split; [exact H|].
  exact (@load_test_set_installs_decoded_files libraries collaborator
           (fresh complete) H).
Defined.

(** X13 on the directory without [test/settings/data.json]. *)
Lemma get_syst_train_set_retry_witness :
  Data__train_set (self (fresh train_only)) = Bound None /\
  ground_truth_file (world (fresh train_only))
    (input_dir (self (fresh train_only))) =
  Raise (FileNotFoundError "/input/test/settings/data.json") /\
  outcome
    (get_syst_train_set
       default_tes default_jes default_soft_met
       default_scale default_scale default_scale (fresh train_only)) =
  Raise (FileNotFoundError "/input/test/settings/data.json") /\
  calls
    (log_after
       (get_syst_train_set
          default_tes default_jes default_soft_met
          default_scale default_scale default_scale (fresh train_only))) =
  calls (log (world (fresh train_only))).
Proof.
  assert (He : ground_truth_file (world (fresh train_only))
                 (input_dir (self (fresh train_only))) =
               Raise (FileNotFoundError "/input/test/settings/data.json"))
    by (vm_compute; reflexivity).
  assert (Hsome : match train_files (world (fresh train_only))
                          (input_dir (self (fresh train_only))) with
                  | Some _ => true
                  | None => false
                  end = true)
    by (vm_compute; reflexivity).
  destruct (train_files (world (fresh train_only))
              (input_dir (self (fresh train_only)))) as [ts|] eqn:Hts;
    [|discriminate Hsome].
  destruct (@get_syst_train_set_retry libraries collaborator
              (fresh train_only) ts _
              default_tes default_jes default_soft_met
              default_scale default_scale default_scale
              eq_refl Hts He) as (H1 & H2 & _).
  split; [reflexivity|]. split; [exact He|]. split; [exact H1|exact H2].
Defined.

(** X14 on the empty directory. *)
Lemma get_syst_train_set_unreadable_witness :
  Data__train_set (self (fresh empty)) = Bound None /\
  self_after
    (get_syst_train_set
       default_tes default_jes default_soft_met
       default_scale default_scale default_scale (fresh empty)) =
  self (fresh empty).
Proof.
  assert (Hnone : match train_files (world (fresh empty))
                          (input_dir (self (fresh empty))) with
                  | Some _ => false
                  | None => true
                  end = true)
    by (vm_compute; reflexivity).
  destruct (train_files (world (fresh empty))
              (input_dir (self (fresh empty)))) as [ts|] eqn:Hts;
    [discriminate Hnone|].
  split; [reflexivity|].
  exact (proj1 (proj2
           (@get_syst_train_set_unreadable libraries collaborator
              (fresh empty)
              default_tes default_jes default_soft_met
              default_scale default_scale default_scale
              eq_refl Hts))).
Defined.

(** X15 on the complete directory. *)
Lemma load_train_set_detailed_labels_witness :
  fs (world (fresh complete))
    (train_detailed_labels_file (input_dir (self (fresh complete)))) =
  Some (unlines ["htautau"; "ztautau"]) /\
  forallb no_linebreak ["htautau"; "ztautau"] = true /\
  outcome (load_train_set (fresh complete)) = Ok tt /\
  exists ts,
    Data__train_set (self_after (load_train_set (fresh complete))) =
    Bound (Some ts) /\
    detailed_labels ts = ["htautau"; "ztautau"].
Proof.
  assert (Hfile : fs (world (fresh complete))
                    (train_detailed_labels_file
                       (input_dir (self (fresh complete)))) =
                  Some (unlines ["htautau"; "ztautau"]))
    by (vm_compute; reflexivity).
  assert (Hok : outcome (load_train_set (fresh complete)) = Ok tt)
    by (vm_compute; reflexivity).
  split; [exact Hfile|]. split; [reflexivity|]. split; [exact Hok|].
  exact (@load_train_set_detailed_labels libraries collaborator
           (fresh complete) ["htautau"; "ztautau"] Hfile eq_refl Hok).
Defined.

(** X16 on the complete directory. *)
Lemma get_syst_train_set_loads_then_reuses_witness :
  let call :=
    get_syst_train_set
      default_tes default_jes default_soft_met
      default_scale default_scale default_scale in
  Data__train_set (self (fresh complete)) = Bound None /\
  ground_truth_file (world (fresh complete))
    (input_dir (self (fresh complete))) = Ok (JInt 2) /\
  ground_truth_mus (self_after (call (fresh complete))) = Bound (JInt 2) /\
  opens (log_after (call (snd (call (fresh complete))))) =
  opens (log_after (call (fresh complete))).
Proof.
  cbn zeta.
  assert (Hv : ground_truth_file (world (fresh complete))
                 (input_dir (self (fresh complete))) = Ok (JInt 2))
    by (vm_compute; reflexivity).
  assert (Hsome : match train_files (world (fresh complete))
                          (input_dir (self (fresh complete))) with
                  | Some _ => true
                  | None => false
                  end = true)
    by (vm_compute; reflexivity).
  destruct (train_files (world (fresh complete))
              (input_dir (self (fresh complete)))) as [ts|] eqn:Hts;
    [|discriminate Hsome].
  destruct (@get_syst_train_set_loads_then_reuses libraries collaborator
              (fresh complete) ts ts (JInt 2)
              default_tes default_jes default_soft_met
              default_scale default_scale default_scale
              eq_refl Hts Hv eq_refl)
    as (_ & _ & _ & _ & Hgt & _ & Hopens).
  split; [reflexivity|]. split; [exact Hv|]. split; [exact Hgt|exact Hopens].
Defined.
End More_concrete.

(** ** Concrete runs of the helper *)

Section Helper_concrete.
Import Provisioner ToyHost.
#[local] Open Scope list_scope.

Lemma unpack_keeps : @extractall_keeps zip.
Proof.
  intros archive dest d p. cbn. unfold unpack. cbn [snd].
  revert d. induction archive as [|e archive IH]; intros d H; cbn [fold_left].
  - exact H.
  - apply IH. destruct p as [|a p]; [cbn; discriminate|].
    change (d (a :: p) <> None) in H.
    change (put (dest ++ fst e) (snd e) d (a :: p) <> None).
    unfold put.
    destruct (path_eqb (a :: p) (dest ++ fst e)); [discriminate|exact H].
Qed.

(** X17 on the machine a first call has provisioned. *)
Lemma provisioned_directory_is_left_alone_witness :
  present provisioned (public_data provisioned) = true /\
  present provisioned (archive_file provisioned) = true /\
  present provisioned (input_data provisioned) = true /\
  snd (@Neurips2024_public_dataset Toy.libraries zip provisioned) =
  provisioned.
Proof.
  assert (H1 : present provisioned (public_data provisioned) = true)
    by (vm_compute; reflexivity).
  assert (H2 : present provisioned (archive_file provisioned) = true)
    by (vm_compute; reflexivity).
  assert (H3 : present provisioned (input_data provisioned) = true)
    by (vm_compute; reflexivity).
  split; [exact H1|]. split; [exact H2|]. split; [exact H3|].
  exact (proj1 (@provisioned_directory_is_left_alone
                  Toy.libraries zip Toy.collaborator provisioned H1 H2 H3)).
Defined.

(** X18 on a machine with an archive file and a working network. *)
Lemma cached_archive_means_no_request_witness :
  present (host stale_tree serving) (public_data (host stale_tree serving)) =
  true /\
  present (host stale_tree serving) (archive_file (host stale_tree serving)) =
  true /\
  requests
    (journal
       (snd (@Neurips2024_public_dataset Toy.libraries zip
               (host stale_tree serving)))) =
  requests (journal (host stale_tree serving)).
Proof.
  assert (H1 : present (host stale_tree serving)
                 (public_data (host stale_tree serving)) = true)
    by (vm_compute; reflexivity).
  assert (H2 : present (host stale_tree serving)
                 (archive_file (host stale_tree serving)) = true)
    by (vm_compute; reflexivity).
  split; [exact H1|]. split; [exact H2|].
  exact (@cached_archive_means_no_request Toy.libraries zip
           (host stale_tree serving) H1 H2).
Defined.


Lemma bare_has_no_public_data (n : string -> response) (c : string) :
  node_at (disk (host bare_tree n)) (public_data (host bare_tree n)) <>
  Some (File c).
Proof. vm_compute. discriminate. Qed.

(** X20 on a bare machine and a stream that breaks after one chunk. *)
Lemma broken_download_leaves_partial_archive_witness :
  node_at (disk (host bare_tree breaking)) (cwd (host bare_tree breaking)) =
  Some Dir /\
  present (host bare_tree breaking) (archive_file (host bare_tree breaking)) =
  false /\
  error_status 200 = false /\
  fst (@Neurips2024_public_dataset Toy.libraries zip
         (host bare_tree breaking)) = Failed ChunkedEncodingError /\
  disk
    (snd (@Neurips2024_public_dataset Toy.libraries zip
            (host bare_tree breaking)))
    (archive_file (host bare_tree breaking)) = Some (File "PK-").
Proof.
  assert (H1 : node_at (disk (host bare_tree breaking))
                 (cwd (host bare_tree breaking)) = Some Dir)
    by (vm_compute; reflexivity).
  assert (H2 : present (host bare_tree breaking)
                 (archive_file (host bare_tree breaking)) = false)
    by (vm_compute; reflexivity).
  destruct (@broken_download_leaves_partial_archive Toy.libraries zip
              (host bare_tree breaking) 200 ["PK-"]
              H1 (bare_has_no_public_data breaking) H2 eq_refl eq_refl)
    as (Hfail & Hfile & _).
  split; [exact H1|]. split; [exact H2|]. split; [reflexivity|].
  split; [exact Hfail|exact Hfile].
Defined.

(** X21 on a machine whose archive file is a web page. *)
Lemma unreadable_archive_is_never_replaced_witness :
  present (host stale_tree unreachable)
    (public_data (host stale_tree unreachable)) = true /\
  disk (host stale_tree unreachable)
    (archive_file (host stale_tree unreachable)) = Some (File "<html>") /\
  @zip_read zip "<html>" = None /\
  present (host stale_tree unreachable)
    (input_data (host stale_tree unreachable)) = false /\
  @Neurips2024_public_dataset Toy.libraries zip
    (with_net serving (host stale_tree unreachable)) =
  (Failed BadZipFile, with_net serving (host stale_tree unreachable)).
Proof.
  assert (H1 : present (host stale_tree unreachable)
                 (public_data (host stale_tree unreachable)) = true)
    by (vm_compute; reflexivity).
  assert (H2 : disk (host stale_tree unreachable)
                 (archive_file (host stale_tree unreachable)) =
               Some (File "<html>"))
    by (vm_compute; reflexivity).
  assert (H3 : present (host stale_tree unreachable)
                 (input_data (host stale_tree unreachable)) = false)
    by (vm_compute; reflexivity).
  split; [exact H1|]. split; [exact H2|]. split; [reflexivity|].
  split; [exact H3|].
  exact (@unreadable_archive_is_never_replaced Toy.libraries zip
           (host stale_tree unreachable) "<html>" H1 H2 eq_refl H3 serving).
Defined.

(** X22 on a bare machine: the stream breaks, then the network works. *)
Lemma broken_download_poisons_the_cache_witness :
  @zip_read zip (concat_all ["PK-"]) = None /\
  @Neurips2024_public_dataset Toy.libraries zip
    (with_net serving
       (snd (@Neurips2024_public_dataset Toy.libraries zip
               (host bare_tree breaking)))) =
  (Failed BadZipFile,
   with_net serving
     (snd (@Neurips2024_public_dataset Toy.libraries zip
             (host bare_tree breaking)))).
Proof.
  assert (H1 : node_at (disk (host bare_tree breaking))
                 (cwd (host bare_tree breaking)) = Some Dir)
    by (vm_compute; reflexivity).
  assert (H2 : present (host bare_tree breaking)
                 (archive_file (host bare_tree breaking)) = false)
    by (vm_compute; reflexivity).
  assert (H3 : present (host bare_tree breaking)
                 (input_data (host bare_tree breaking)) = false)
    by (vm_compute; reflexivity).
  split; [reflexivity|].
  exact (@broken_download_poisons_the_cache Toy.libraries zip
           (host bare_tree breaking) 200 ["PK-"]
           H1 (bare_has_no_public_data breaking) H2 H3
           eq_refl eq_refl eq_refl serving).
Defined.

(** X23 on a bare machine and a working network. *)
Lemma second_call_is_noop_witness :
  @extractall_keeps zip /\
  present
    (snd (@Neurips2024_public_dataset Toy.libraries zip
            (host bare_tree serving)))
    (input_data (host bare_tree serving)) = true /\
  snd (@Neurips2024_public_dataset Toy.libraries zip
         (snd (@Neurips2024_public_dataset Toy.libraries zip
                 (host bare_tree serving)))) =
  snd (@Neurips2024_public_dataset Toy.libraries zip
         (host bare_tree serving)).
Proof.
  assert (Hin : present
                  (snd (@Neurips2024_public_dataset Toy.libraries zip
                          (host bare_tree serving)))
                  (input_data (host bare_tree serving)) = true)
    by (vm_compute; reflexivity).
  assert (Hdone : match fst (@Neurips2024_public_dataset Toy.libraries zip
                               (host bare_tree serving)) with
                  | Done _ => true
                  | Failed _ => false
                  end = true)
    by (vm_compute; reflexivity).
  split; [exact unpack_keeps|]. split; [exact Hin|].
  destruct (fst (@Neurips2024_public_dataset Toy.libraries zip
                   (host bare_tree serving))) as [d|e] eqn:Hd;
    [|discriminate Hdone].
  rewrite (@second_call_is_noop Toy.libraries zip
             (host bare_tree serving) d unpack_keeps Hd Hin).
  reflexivity.
Defined.

(** X24 on a machine where [public_data] is a regular file. *)
Lemma public_data_as_file_wastes_the_download_witness :
  node_at (disk (host blocked_tree serving))
    (public_data (host blocked_tree serving)) = Some (File "notes") /\
  present (host blocked_tree serving)
    (archive_file (host blocked_tree serving)) = false /\
  fst (@Neurips2024_public_dataset Toy.libraries zip
         (host blocked_tree serving)) =
  Failed (NotADirectoryError (archive_file (host blocked_tree serving))) /\
  journal
    (snd (@Neurips2024_public_dataset Toy.libraries zip
            (host blocked_tree serving))) = [Requested url].
Proof.
  assert (H1 : node_at (disk (host blocked_tree serving))
                 (public_data (host blocked_tree serving)) =
               Some (File "notes"))
    by (vm_compute; reflexivity).
  assert (H2 : present (host blocked_tree serving)
                 (archive_file (host blocked_tree serving)) = false)
    by (vm_compute; reflexivity).
  split; [exact H1|]. split; [exact H2|].
  rewrite (@public_data_as_file_wastes_the_download Toy.libraries zip
             (host blocked_tree serving) "notes" 200 ["PK-"; "toy"] true
             H1 H2 eq_refl eq_refl).
  split; reflexivity.
Defined.
End Helper_concrete.
